(** * HealthCare Assistant: retrieval, ranking and index building

    A shallow embedding of [src/create_faiss.py] (class [FAISSCreator]) and
    [src/diagnosis.py] (class [HealthcareDiagnoser]), followed by the
    properties of the specification that concern them.

    Conventions of the embedding:
    - Python [str] is [string]; [str.lower] and [str.strip] are modelled on
      the ASCII range (bytes above 127 are left alone).
    - numpy / Python floats are exact rationals [Q]: the distance to
      confidence map only multiplies by 20, subtracts from 100 and compares,
      and rounding is monotone, so order facts carry over; NaN is not
      modelled.
    - a Python exception is the [Raised] branch of [result].
    - a Python [dict] whose iteration order matters is an association list
      kept in insertion order.
    - the two external libraries are models of their documented behaviour:
      [Faiss] (exact flat L2 index) and the sentence encoder (a field of the
      object that owns it).
    - an entry of [data/health.json] may be any JSON value and its name any
      JSON value; the lists of symptoms, medicines and precautions hold
      strings (a file with other values there is outside the model, and so
      are faults of the file system while the artifacts are saved). *)

From Stdlib Require Import String Ascii List Bool Arith ZArith QArith Qminmax.
From Stdlib Require Import Lia Lqa Permutation Sorted DecimalString.
Import ListNotations.

Set Implicit Arguments.

(* ================================================================= *)
(** ** Python values and builtins *)

Module Py.

(** The exception classes the two modules can raise. *)
Inductive exn : Type :=
| FileNotFoundError
| RuntimeError
| IndexError
| AssertionError
| Exception.

Inductive result (A : Type) : Type :=
| Returned (a : A)
| Raised (e : exn).
Arguments Raised {A} e.

Definition bind {A B : Type} (c : result A) (k : A -> result B) : result B :=
  match c with
  | Returned a => k a
  | Raised e => Raised e
  end.

(** Truth value of a list: [if xs:]. *)
Definition truthy {A : Type} (xs : list A) : bool :=
  match xs with
  | [] => false
  | _ :: _ => true
  end.

(** [xs[i]] for a signed index: negative indices count from the end. *)
Definition getitem {A : Type} (xs : list A) (i : Z) : result A :=
  let n := Z.of_nat (length xs) in
  let j := if (i <? 0)%Z then (i + n)%Z else i in
  if (j <? 0)%Z then Raised IndexError
  else match nth_error xs (Z.to_nat j) with
       | Some x => Returned x
       | None => Raised IndexError
       end.

(** [xs[:n]]. *)
Definition slice_to {A : Type} (n : nat) (xs : list A) : list A := firstn n xs.

(** [sep.join(xs)]. *)
Definition join (sep : string) (xs : list string) : string := String.concat sep xs.

Definition ltb (a b : Q) : bool := negb (Qle_bool b a).

(** [max(a, b)]: the first argument unless the second is strictly larger. *)
Definition max (a b : Q) : Q := if ltb a b then b else a.

(** [min(a, b)]: the first argument unless the second is strictly smaller. *)
Definition min (a b : Q) : Q := if ltb b a then b else a.

Definition lower_ascii (c : ascii) : ascii :=
  let n := nat_of_ascii c in
  if andb (65 <=? n) (n <=? 90) then ascii_of_nat (n + 32) else c.

(** [s.lower()]. *)
Fixpoint lower (s : string) : string :=
  match s with
  | EmptyString => EmptyString
  | String c s' => String (lower_ascii c) (lower s')
  end.

(** ASCII characters for which [str.isspace] holds. *)
Definition isspace (c : ascii) : bool :=
  let n := nat_of_ascii c in
  orb (andb (9 <=? n) (n <=? 13)) (andb (28 <=? n) (n <=? 32)).

Fixpoint lstrip (s : string) : string :=
  match s with
  | EmptyString => EmptyString
  | String c s' => if isspace c then lstrip s' else s
  end.

Fixpoint rstrip (s : string) : string :=
  match s with
  | EmptyString => EmptyString
  | String c s' =>
      match rstrip s' with
      | EmptyString => if isspace c then EmptyString else String c EmptyString
      | r => String c r
      end
  end.

(** [s.strip()]. *)
Definition strip (s : string) : string := rstrip (lstrip s).

(** Truth value of a string: [if s:]. *)
Definition nonempty (s : string) : bool :=
  match s with
  | EmptyString => false
  | String _ _ => true
  end.

(** [str(n)] for a length, as an f-string prints it. *)
Definition str_of_len (n : nat) : string :=
  NilEmpty.string_of_uint (Nat.to_uint n).

End Py.

Notation "x <- c ;; k" := (Py.bind c (fun x => k))
  (at level 61, c at next level, right associativity).

(* ================================================================= *)
(** ** Data model *)

(** A vector of floats. *)
Definition vec : Type := list Q.

(** The dictionary with keys ['disease'], ['symptoms'], ['medicines'] and
    ['precautions'] built by [parse_health_file] and copied into the
    metadata table. *)
Module Meta.
Record t : Type := mk {
  disease : string;
  symptoms : list string;
  medicines : list string;
  precautions : list string
}.
End Meta.

(** One entry of the ['diseases'] array of [data/health.json], after the
    defaults of [dict.get] have been applied. *)
Module Raw.
Record t : Type := mk {
  name : string;
  symptoms : list string;
  medicines : list string;
  precautions : list string
}.
End Raw.

(** The dictionary appended to [results] by [search_similar_diseases]. *)
Module Hit.
Record t : Type := mk {
  disease : string;
  symptoms : list string;
  confidence : Q;
  distance : Q
}.
End Hit.

(** The dictionary appended to [final_diagnoses] by [diagnose]. *)
Module Diagnosis.
Record t : Type := mk {
  disease : string;
  symptoms : list string;
  medicines : list string;
  precautions : list string;
  confidence : Q
}.
End Diagnosis.

(* ================================================================= *)
(** ** The vector index library

    The flat index of the external library faiss, as its documentation
    describes it: exhaustive search under squared Euclidean distance; a
    result row always has [k] slots, and the slots for which no vector is
    left carry the label [-1] and the largest finite float as distance.
    The result heap starts filled with such slots and a vector enters it
    only with a distance strictly below the one it replaces, so a vector
    whose distance is not below [FLT_MAX] (an overflow, in floats) is never
    reported. The wrapper asserts that the query has the dimension of the
    index and that [k] is positive. The order among equal distances, which
    the library leaves open, is taken to be lowest label first; no statement
    below depends on it. *)

Module Faiss.

Record IndexFlatL2 : Type := mk {
  d : nat;              (* dimension *)
  xb : list vec         (* the stored vectors, in insertion order *)
}.

Definition ntotal (index : IndexFlatL2) : nat := length (xb index).

(** [faiss.IndexFlatL2(dimension)]. *)
Definition new (dimension : nat) : IndexFlatL2 := mk dimension [].

(** [index.add(x)]. *)
Definition add (index : IndexFlatL2) (x : list vec) : IndexFlatL2 :=
  mk (d index) (xb index ++ x).

Definition FLT_MAX : Q := 340282346638528859811704183484516925440.

Fixpoint fvec_L2sqr (x y : vec) : Q :=
  match x, y with
  | a :: x', b :: y' => (a - b) * (a - b) + fvec_L2sqr x' y'
  | _, _ => 0
  end.

(** Insertion of a slot in a row sorted by ascending distance, before the
    slots of equal distance. *)
Fixpoint insert (e : Q * Z) (row : list (Q * Z)) : list (Q * Z) :=
  match row with
  | [] => [e]
  | h :: t => if Qle_bool (fst e) (fst h) then e :: row else h :: insert e t
  end.

Definition labels (n : nat) : list Z := map Z.of_nat (seq 0 n).

(** A slot that can enter the result heap. *)
Definition within_range (slot : Q * Z) : bool := Py.ltb (fst slot) FLT_MAX.

(** The stored vectors that can be reported, nearest first. *)
Definition ranked (index : IndexFlatL2) (x : vec) : list (Q * Z) :=
  fold_right insert []
    (filter within_range
       (combine (map (fvec_L2sqr x) (xb index)) (labels (ntotal index)))).

(** [index.search(x, k)] for one query vector: the row of [k] pairs of a
    distance and a label (the two returned arrays have the same shape and
    are kept zipped). The wrapper runs [assert d == self.d] and
    [assert k > 0] first. *)
Definition search (index : IndexFlatL2) (x : vec) (k : nat)
  : Py.result (list (Q * Z)) :=
  if Nat.eqb (length x) (d index) then
    if Nat.ltb 0 k then
      let found := firstn k (ranked index x) in
      Py.Returned (found ++ repeat (FLT_MAX, (-1)%Z) (k - length found))
    else Py.Raised Py.AssertionError
  else Py.Raised Py.AssertionError.

End Faiss.

(* ================================================================= *)
(** ** create_faiss.py *)

(** The three artifacts of the folder [faiss_index]. *)
Module Store.
Record t : Type := mk {
  folder_exists : bool;
  index_faiss : option Faiss.IndexFlatL2;
  docs_pkl : option (list string);
  metadata_pkl : option (list Meta.t)
}.
Definition empty : t := mk false None None None.
End Store.

Module FAISSCreator.

(** An item of the ['diseases'] array. *)
Inductive entry : Type :=
| Disease (disease_info : Raw.t)  (* an object whose name is a string, or absent *)
| NameNotAString                  (* an object whose name is another JSON value *)
| NotAnObject.                    (* any other JSON value *)

(** What the builder reads from its surroundings: [data/health.json]
    ([None] when the file is missing, is not JSON or has no ['diseases']
    array) and the sentence encoder ([None] when loading the model
    raises; the encoder itself returns [None] when [encode] raises). *)
Record world : Type := mk {
  health_file : option (list entry);
  sentence_transformer : option (list string -> option (list vec))
}.

(** The call [disease.get('name', 'Unknown')] of [check_file] raises on an
    item that is not an object. *)
Definition has_get (e : entry) : bool :=
  match e with
  | NotAnObject => false
  | _ => true
  end.

(** [check_file]: the names of the first three items are printed inside the
    [try], and an exception there makes the function return [False]. *)
Definition check_file (w : world) : bool :=
  match health_file w with
  | Some diseases => forallb has_get (Py.slice_to 3 diseases)
  | None => false
  end.

Definition parse_entry (diseases : list Meta.t) (disease_info : Raw.t)
  : list Meta.t :=
  let disease := Py.strip (Raw.name disease_info) in
  let symptoms := Raw.symptoms disease_info in
  let medicines := Raw.medicines disease_info in
  let precautions := Raw.precautions disease_info in
  if Py.nonempty disease then
    diseases ++ [Meta.mk disease symptoms medicines precautions]
  else diseases.

(** The loop of [parse_health_file], inside its [try]: on an item without
    [get], or whose name has no [strip], the exception ends the loop; the
    [except] prints it and the records parsed so far are returned. *)
Fixpoint parse_entries (data : list entry) (diseases : list Meta.t)
  : list Meta.t :=
  match data with
  | [] => diseases
  | Disease disease_info :: rest =>
      parse_entries rest (parse_entry diseases disease_info)
  | NameNotAString :: _ => diseases
  | NotAnObject :: _ => diseases
  end.

Definition parse_health_file (w : world) : list Meta.t :=
  match health_file w with
  | Some data => parse_entries data []
  | None => []
  end.

(** Variation 1, [comprehensive_doc]: the labelled sections joined. *)
Definition comprehensive_doc (disease_info : Meta.t) : string :=
  let disease := Meta.disease disease_info in
  let symptoms := Meta.symptoms disease_info in
  let medicines := Meta.medicines disease_info in
  let precautions := Meta.precautions disease_info in
  let doc_parts := [("DISEASE: " ++ disease)%string] in
  let doc_parts :=
    if Py.truthy symptoms
    then doc_parts ++ [("SYMPTOMS: " ++ Py.join ", " symptoms)%string]
    else doc_parts in
  let doc_parts :=
    if Py.truthy medicines
    then doc_parts ++ [("MEDICINES: " ++ Py.join ", " medicines)%string]
    else doc_parts in
  let doc_parts :=
    if Py.truthy precautions
    then doc_parts ++ [("PRECAUTIONS: " ++ Py.join ", " precautions)%string]
    else doc_parts in
  (Py.join ". " doc_parts ++ ".")%string.

(** Variation 2, [symptoms_doc]. *)
Definition symptoms_doc (disease_info : Meta.t) : string :=
  let disease := Meta.disease disease_info in
  let symptoms := Meta.symptoms disease_info in
  (disease ++ " SYMPTOMS: " ++ Py.join ", " symptoms
   ++ ". Common signs include "
   ++ Py.join ", " (Py.slice_to 3 symptoms) ++ ".")%string.

(** Variation 3, [treatment_doc]. *)
Definition treatment_doc (disease_info : Meta.t) : string :=
  let disease := Meta.disease disease_info in
  let medicines := Meta.medicines disease_info in
  (disease ++ " TREATMENT: Medications include "
   ++ Py.join ", " (Py.slice_to 3 medicines) ++ ". "
   ++ Py.join ", " (Py.slice_to 2 medicines)
   ++ " are commonly prescribed.")%string.

(** Variation 4, [prevention_doc]. *)
Definition prevention_doc (disease_info : Meta.t) : string :=
  let disease := Meta.disease disease_info in
  let precautions := Meta.precautions disease_info in
  (disease ++ " PREVENTION: "
   ++ Py.join ", " (Py.slice_to 3 precautions)
   ++ ". Recommended precautions: "
   ++ Py.join ", " (Py.slice_to 2 precautions) ++ ".")%string.

(** The list [doc_variations] of one disease, as the body of the loop of
    [create_knowledge_base] fills it. *)
Definition doc_variations (disease_info : Meta.t) : list string :=
  let doc_variations := [] in
  let doc_variations := doc_variations ++ [comprehensive_doc disease_info] in
  let doc_variations :=
    if Py.truthy (Meta.symptoms disease_info)
    then doc_variations ++ [symptoms_doc disease_info]
    else doc_variations in
  let doc_variations :=
    if Py.truthy (Meta.medicines disease_info)
    then doc_variations ++ [treatment_doc disease_info]
    else doc_variations in
  let doc_variations :=
    if Py.truthy (Meta.precautions disease_info)
    then doc_variations ++ [prevention_doc disease_info]
    else doc_variations in
  doc_variations.

(** The two tables [documents] and [metadata] that the loops append to. *)
Definition tables : Type := (list string * list Meta.t)%type.

(** [for doc in doc_variations: documents.append(doc); metadata.append({...})]. *)
Definition store_variation (disease_info : Meta.t) (tb : tables) (doc : string)
  : tables :=
  (fst tb ++ [doc],
   snd tb ++ [Meta.mk (Meta.disease disease_info) (Meta.symptoms disease_info)
                      (Meta.medicines disease_info) (Meta.precautions disease_info)]).

(** One turn of [for disease_info in disease_data]. *)
Definition add_disease (tb : tables) (disease_info : Meta.t) : tables :=
  fold_left (store_variation disease_info) (doc_variations disease_info) tb.

Definition create_knowledge_base (w : world) : Py.result tables :=
  if negb (check_file w) then Py.Raised Py.Exception
  else
    let disease_data := parse_health_file w in
    if negb (Py.truthy disease_data) then Py.Returned ([], [])
    else Py.Returned (fold_left add_disease disease_data ([], [])).

(** [create_faiss_index]: the value returned (or the exception that
    escapes) and the folder as the call leaves it. Failures of the file
    system while saving are not modelled. *)
Definition create_faiss_index (w : world) (folder : Store.t)
  : Py.result bool * Store.t :=
  match create_knowledge_base w with
  | Py.Raised e => (Py.Raised e, folder)
  | Py.Returned (documents, metadata) =>
      if negb (Py.truthy documents) then (Py.Returned false, folder)
      else
        match sentence_transformer w with
        | None => (Py.Returned false, folder)
        | Some encode =>
            match encode documents with
            | None => (Py.Returned false, folder)
            | Some embeddings =>
                let dimension := length (hd [] embeddings) in
                let index := Faiss.new dimension in
                let index := Faiss.add index embeddings in
                (Py.Returned true,
                 Store.mk true (Some index) (Some documents) (Some metadata))
            end
        end
  end.

End FAISSCreator.

(* ================================================================= *)
(** ** diagnosis.py *)

Module HealthcareDiagnoser.

(** The object: [self.embedder] (the text of a query to its vector),
    [self.index], [self.documents] and [self.metadata]. *)
Record t : Type := mk {
  embedder : string -> vec;
  index : Faiss.IndexFlatL2;
  documents : list string;
  metadata : list Meta.t
}.

(** [load_faiss_index], called by [__init__]. Reading a missing
    [index.faiss] makes the library raise its own error; opening a missing
    pickle raises [FileNotFoundError]. *)
Definition load_faiss_index (embed : string -> vec) (folder : Store.t)
  : Py.result t :=
  if negb (Store.folder_exists folder) then Py.Raised Py.FileNotFoundError
  else
    index <- match Store.index_faiss folder with
             | Some i => Py.Returned i
             | None => Py.Raised Py.RuntimeError
             end ;;
    documents <- match Store.docs_pkl folder with
                 | Some ds => Py.Returned ds
                 | None => Py.Raised Py.FileNotFoundError
                 end ;;
    metadata <- match Store.metadata_pkl folder with
                | Some ms => Py.Returned ms
                | None => Py.Raised Py.FileNotFoundError
                end ;;
    Py.Returned (mk embed index documents metadata).

(** [for meta in self.metadata: if ... : return meta], then [return None]. *)
Fixpoint get_complete_disease_info_from (metadata : list Meta.t)
  (disease_name : string) : option Meta.t :=
  match metadata with
  | [] => None
  | meta :: rest =>
      if String.eqb (Py.lower (Meta.disease meta)) (Py.lower disease_name)
      then Some meta
      else get_complete_disease_info_from rest disease_name
  end.

Definition get_complete_disease_info (self : t) (disease_name : string)
  : option Meta.t :=
  get_complete_disease_info_from (metadata self) disease_name.

(** [max(0, 100 - (distance * 20))]. *)
Definition hit_confidence (distance : Q) : Q :=
  Py.max 0 (100 - distance * 20).

(** The loop of [search_similar_diseases] over the slots of the row. *)
Fixpoint collect_hits (metadata : list Meta.t) (row : list (Q * Z))
  (results : list Hit.t) : Py.result (list Hit.t) :=
  match row with
  | [] => Py.Returned results
  | (dist, idx) :: row' =>
      if (idx <? Z.of_nat (length metadata))%Z then
        disease_meta <- Py.getitem metadata idx ;;
        collect_hits metadata row'
          (results ++ [Hit.mk (Meta.disease disease_meta)
                              (Meta.symptoms disease_meta)
                              (hit_confidence dist)
                              dist])
      else collect_hits metadata row' results
  end.

Definition search_similar_diseases (self : t) (symptoms_text : string)
  (top_k : nat) : Py.result (list Hit.t) :=
  let query_embedding := embedder self symptoms_text in
  row <- Faiss.search (index self) query_embedding top_k ;;
  collect_hits (metadata self) row [].

(** The dictionary [unique_diseases]: keys in order of first insertion. *)
Definition dict : Type := list (string * Hit.t).

Fixpoint dict_get (dt : dict) (key : string) : option Hit.t :=
  match dt with
  | [] => None
  | (k, v) :: rest => if String.eqb k key then Some v else dict_get rest key
  end.

(** [dt[key] = value]: an existing key keeps its place. *)
Fixpoint dict_set (dt : dict) (key : string) (value : Hit.t) : dict :=
  match dt with
  | [] => [(key, value)]
  | (k, v) :: rest =>
      if String.eqb k key then (k, value) :: rest
      else (k, v) :: dict_set rest key value
  end.

Definition dict_values (dt : dict) : list Hit.t := map snd dt.

(** One turn of [for disease_info in similar_diseases]. *)
Definition dedup_step (unique_diseases : dict) (disease_info : Hit.t) : dict :=
  let disease_name := Hit.disease disease_info in
  match dict_get unique_diseases disease_name with
  | None => dict_set unique_diseases disease_name disease_info
  | Some kept =>
      if Py.ltb (Hit.confidence kept) (Hit.confidence disease_info)
      then dict_set unique_diseases disease_name disease_info
      else unique_diseases
  end.

Definition deduplicate (similar_diseases : list Hit.t) : dict :=
  fold_left dedup_step similar_diseases [].

(** [sorted(xs, key=lambda x: x['confidence'], reverse=True)]: the stable
    sort by descending key, written as a stable insertion sort. *)
Fixpoint insert_desc (x : Hit.t) (xs : list Hit.t) : list Hit.t :=
  match xs with
  | [] => [x]
  | y :: ys =>
      if Py.ltb (Hit.confidence x) (Hit.confidence y)
      then y :: insert_desc x ys
      else x :: xs
  end.

Definition sorted_by_confidence_desc (xs : list Hit.t) : list Hit.t :=
  fold_right insert_desc [] xs.

(** One turn of [for disease_info in sorted_diseases[:3]]. *)
Definition assemble (metadata : list Meta.t) (final_diagnoses : list Diagnosis.t)
  (disease_info : Hit.t) : list Diagnosis.t :=
  match get_complete_disease_info_from metadata (Hit.disease disease_info) with
  | Some complete_info =>
      final_diagnoses ++
      [Diagnosis.mk (Meta.disease complete_info)
                    (Meta.symptoms complete_info)
                    (Meta.medicines complete_info)
                    (Meta.precautions complete_info)
                    (Py.min 95 (Hit.confidence disease_info))]
  | None => final_diagnoses
  end.

(** The part of [diagnose] after the search. *)
Definition rank_and_assemble (metadata : list Meta.t)
  (similar_diseases : list Hit.t) : list Diagnosis.t :=
  let unique_diseases := deduplicate similar_diseases in
  let sorted_diseases := sorted_by_confidence_desc (dict_values unique_diseases) in
  fold_left (assemble metadata) (Py.slice_to 3 sorted_diseases) [].

Definition diagnose (self : t) (symptoms_text : string) (top_k : nat)
  : Py.result (list Diagnosis.t) :=
  similar_diseases <- search_similar_diseases self symptoms_text top_k ;;
  Py.Returned (rank_and_assemble (metadata self) similar_diseases).

(** The dictionary returned by [generate_response]. *)
Record response : Type := mk_response {
  diagnoses : list Diagnosis.t;
  message : string
}.

Definition no_match_message : string :=
  "I couldn't find a matching condition for your symptoms. Please consult a healthcare professional for accurate diagnosis.".

(** [generate_response]: [diagnose] is called with its default [top_k=15]. *)
Definition generate_response (self : t) (symptoms_text : string)
  : Py.result response :=
  diagnoses <- diagnose self symptoms_text 15 ;;
  if negb (Py.truthy diagnoses) then
    Py.Returned (mk_response [] no_match_message)
  else
    Py.Returned
      (mk_response diagnoses
         ("Found " ++ Py.str_of_len (length diagnoses)
          ++ " possible conditions matching your symptoms.")%string).

End HealthcareDiagnoser.

(* ================================================================= *)
(** ** Vocabulary of the statements *)

(** The hit that [search_similar_diseases] appends for a slot at distance
    [dist] whose label selects the metadata entry [m]. *)
Definition hit_of (m : Meta.t) (dist : Q) : Hit.t :=
  Hit.mk (Meta.disease m) (Meta.symptoms m)
         (HealthcareDiagnoser.hit_confidence dist) dist.

(** The diagnosis that [diagnose] appends for a ranked hit of confidence [c]
    resolved to the metadata entry [m]. *)
Definition diagnosis_of (m : Meta.t) (c : Q) : Diagnosis.t :=
  Diagnosis.mk (Meta.disease m) (Meta.symptoms m) (Meta.medicines m)
               (Meta.precautions m) (Py.min 95 c).

(** [m] is the earliest entry of [metadata] whose name equals [name] up to
    letter case. *)
Definition earliest_match (metadata : list Meta.t) (name : string) (m : Meta.t)
  : Prop :=
  exists i,
    nth_error metadata i = Some m /\
    Py.lower (Meta.disease m) = Py.lower name /\
    forall j m', (j < i)%nat -> nth_error metadata j = Some m' ->
                 Py.lower (Meta.disease m') <> Py.lower name.

(** The record fields of a diagnosis are those of a metadata entry. *)
Definition same_record (dg : Diagnosis.t) (m : Meta.t) : Prop :=
  Diagnosis.disease dg = Meta.disease m /\
  Diagnosis.symptoms dg = Meta.symptoms m /\
  Diagnosis.medicines dg = Meta.medicines m /\
  Diagnosis.precautions dg = Meta.precautions m.

(** The hits of one confidence, in the order of the list. *)
Definition with_confidence (c : Q) (xs : list Hit.t) : list Hit.t :=
  filter (fun h => Qeq_bool (Hit.confidence h) c) xs.

(** The state of [unique_diseases] once the hits [seen] have been
    processed: one entry per name seen, holding a hit of that name whose
    confidence no hit of that name exceeds. *)
Record dedup_inv (seen : list Hit.t) (dt : HealthcareDiagnoser.dict) : Prop := {
  inv_nodup : NoDup (map fst dt);
  inv_entry : forall name h,
    In (name, h) dt ->
    Hit.disease h = name /\ In h seen /\
    forall h', In h' seen -> Hit.disease h' = name ->
               Hit.confidence h' <= Hit.confidence h;
  inv_seen : forall h, In h seen -> In (Hit.disease h) (map fst dt)
}.

(** The names of a list in the order in which each is met first. *)
Definition first_seen_step (names : list string) (name : string) : list string :=
  if in_dec string_dec name names then names else names ++ [name].

Definition first_seen (names : list string) : list string :=
  fold_left first_seen_step names [].

(** Confidence does not increase along the list. *)
Definition descending : list Hit.t -> Prop :=
  StronglySorted (fun a b => Hit.confidence b <= Hit.confidence a).

(** The two tables as the builder would get them by pairing every document
    variation of every record with that record. *)
Definition paired (disease_data : list Meta.t) : list (string * Meta.t) :=
  flat_map (fun r => map (fun doc => (doc, r)) (FAISSCreator.doc_variations r))
           disease_data.

(** A row of the index in which the distance never decreases. *)
Definition ascending : list (Q * Z) -> Prop :=
  StronglySorted (fun a b => fst a <= fst b).

(** Confidence does not increase along a list of diagnoses. *)
Definition diagnoses_descending : list Diagnosis.t -> Prop :=
  StronglySorted (fun a b => Diagnosis.confidence b <= Diagnosis.confidence a).

(** The diagnosis [dg] is the ranked hit [h] resolved against [metadata]. *)
Definition resolves (metadata : list Meta.t) (h : Hit.t) (dg : Diagnosis.t)
  : Prop :=
  exists m,
    earliest_match metadata (Hit.disease h) m /\
    dg = diagnosis_of m (Hit.confidence h).

(** No two entries of the table have names that are equal up to letter
    case. *)
Definition unique_up_to_case (metadata : list Meta.t) : Prop :=
  NoDup (map (fun m => Py.lower (Meta.disease m)) metadata).

(** The record that [parse_health_file] makes of an entry it keeps. *)
Definition parsed (entry : Raw.t) : Meta.t :=
  Meta.mk (Py.strip (Raw.name entry)) (Raw.symptoms entry)
          (Raw.medicines entry) (Raw.precautions entry).

(** The entries that [parse_health_file] keeps. *)
Definition named (entry : Raw.t) : bool :=
  Py.nonempty (Py.strip (Raw.name entry)).

(** The items of the array that come before the first item that is not an
    object with a string for a name (or without a name). *)
Fixpoint readable_prefix (data : list FAISSCreator.entry) : list Raw.t :=
  match data with
  | FAISSCreator.Disease disease_info :: rest =>
      disease_info :: readable_prefix rest
  | _ => []
  end.

(* ================================================================= *)
(** ** Sample data *)

Module Sample.

Definition flu : Meta.t :=
  Meta.mk "Flu" ["fever"; "cough"]%string ["Paracetamol"%string] ["Rest"%string].

Definition migraine : Meta.t :=
  Meta.mk "Migraine" ["headache"; "nausea"]%string [] ["Avoid light"%string].

(** A second record whose name differs from [flu] in letter case only. *)
Definition flu_upper : Meta.t :=
  Meta.mk "FLU" ["chills"%string] ["Oseltamivir"%string] ["Vaccination"%string].

(** A toy encoder: the length of the text and a constant. *)
Definition embed (text : string) : vec :=
  [inject_Z (Z.of_nat (String.length text)); 1].

Definition encode (texts : list string) : option (list vec) :=
  Some (map embed texts).

Definition raw_flu : Raw.t :=
  Raw.mk "  Flu " ["fever"; "cough"]%string ["Paracetamol"%string] ["Rest"%string].

Definition raw_migraine : Raw.t :=
  Raw.mk "Migraine" ["headache"; "nausea"]%string [] ["Avoid light"%string].

Definition raw_blank : Raw.t := Raw.mk "   " ["itch"%string] [] [].

(** Worlds of the builder. *)
Definition world_ok : FAISSCreator.world :=
  FAISSCreator.mk
    (Some [FAISSCreator.Disease raw_flu; FAISSCreator.Disease raw_blank;
           FAISSCreator.Disease raw_migraine])
    (Some encode).

Definition world_no_records : FAISSCreator.world :=
  FAISSCreator.mk (Some [FAISSCreator.Disease raw_blank]) (Some encode).

Definition world_no_model : FAISSCreator.world :=
  FAISSCreator.mk (Some [FAISSCreator.Disease raw_flu]) None.

(** A folder whose three artifacts disagree in size. *)
Definition folder_inconsistent : Store.t :=
  Store.mk true (Some (Faiss.mk 2 [[0; 0]])) (Some ["a"; "b"]%string) (Some []).

Definition folder_no_docs : Store.t :=
  Store.mk true (Some (Faiss.mk 2 [[0; 0]])) None (Some [flu]).

(** Two stored vectors, one per record. *)
Definition two_records : HealthcareDiagnoser.t :=
  HealthcareDiagnoser.mk (fun _ => [0; 0])
    (Faiss.mk 2 [[0; 0]; [1; 0]]) ["a"; "b"]%string [flu; migraine].

(** Two records whose names differ in letter case only. *)
Definition two_cases : HealthcareDiagnoser.t :=
  HealthcareDiagnoser.mk (fun _ => [0; 0])
    (Faiss.mk 2 [[0; 0]; [1 # 10; 0]]) ["a"; "b"]%string [flu; flu_upper].

(** An index without vectors next to a metadata table with one entry. *)
Definition no_vectors : HealthcareDiagnoser.t :=
  HealthcareDiagnoser.mk (fun _ => [0; 0]) (Faiss.mk 2 []) [] [flu].

(** An index without vectors and empty tables. *)
Definition nothing : HealthcareDiagnoser.t :=
  HealthcareDiagnoser.mk (fun _ => [0; 0]) (Faiss.mk 2 []) [] [].

Definition hit (name : string) (c : Q) : Hit.t := Hit.mk name [] c 0.

End Sample.

(* ================================================================= *)
(** ** Facts about the Python builtins *)

Lemma ltb_lt (a b : Q) : Py.ltb a b = true <-> a < b.
Proof.
  unfold Py.ltb. rewrite negb_true_iff. split; intro H.
  - apply Qnot_le_lt. intro Hle. apply Qle_bool_iff in Hle. congruence.
  - destruct (Qle_bool b a) eqn:E; [|reflexivity].
    apply Qle_bool_iff in E. exfalso. exact (Qlt_not_le _ _ H E).
Qed.

Lemma ltb_ge (a b : Q) : Py.ltb a b = false <-> b <= a.
Proof.
  unfold Py.ltb. rewrite negb_false_iff. apply Qle_bool_iff.
Qed.

Lemma py_max_Qmax (a b : Q) : Py.max a b == Qmax a b.
Proof.
  unfold Py.max. destruct (Py.ltb a b) eqn:E.
  - apply ltb_lt in E. symmetry. apply Q.max_r. apply Qlt_le_weak, E.
  - apply ltb_ge in E. symmetry. apply Q.max_l. exact E.
Qed.

Lemma py_min_Qmin (a b : Q) : Py.min a b == Qmin a b.
Proof.
  unfold Py.min. destruct (Py.ltb b a) eqn:E.
  - apply ltb_lt in E. symmetry. apply Q.min_r. apply Qlt_le_weak, E.
  - apply ltb_ge in E. symmetry. apply Q.min_l. exact E.
Qed.

Lemma In_firstn (A : Type) (n : nat) (xs : list A) (x : A) :
  In x (firstn n xs) -> In x xs.
Proof.
  revert xs. induction n as [|n IH]; intros [|y xs]; simpl; try tauto.
  intros [H | H]; [now left | right; apply IH, H].
Qed.

Lemma NoDup_app_fresh (A : Type) (xs : list A) (x : A) :
  NoDup xs -> ~ In x xs -> NoDup (xs ++ [x]).
Proof.
  induction 1 as [|y xs Hy Hnd IH]; simpl; intro Hx.
  - constructor; [tauto | constructor].
  - constructor.
    + intro H. apply in_app_or in H. destruct H as [H | [<- | []]]; tauto.
    + apply IH. tauto.
Qed.

Lemma getitem_In (A : Type) (xs : list A) (i : Z) (x : A) :
  Py.getitem xs i = Py.Returned x -> In x xs.
Proof.
  unfold Py.getitem.
  destruct ((if (i <? 0)%Z then (i + Z.of_nat (length xs))%Z else i) <? 0)%Z;
    [discriminate|].
  destruct (nth_error xs _) eqn:E; [|discriminate].
  intros [= <-]. eapply nth_error_In, E.
Qed.

(* ================================================================= *)
(** ** The confidence scale *)

Section Confidence.

Import HealthcareDiagnoser.

Lemma hit_confidence_cases (d : Q) :
  (100 - d * 20 <= 0 /\ hit_confidence d = 0) \/
  (0 < 100 - d * 20 /\ hit_confidence d = 100 - d * 20).
Proof.
  unfold hit_confidence, Py.max.
  destruct (Py.ltb 0 (100 - d * 20)) eqn:E.
  - right. apply ltb_lt in E. auto.
  - left. apply ltb_ge in E. auto.
Qed.

Lemma hit_confidence_formula (d : Q) :
  hit_confidence d == Qmax 0 (100 - 20 * d).
Proof.
  destruct (hit_confidence_cases d) as [[H ->] | [H ->]].
  - symmetry. apply Q.max_l. lra.
  - rewrite Q.max_r by lra. ring.
Qed.

Lemma hit_confidence_nonneg (d : Q) : 0 <= hit_confidence d.
Proof.
  destruct (hit_confidence_cases d) as [[H ->] | [H ->]]; lra.
Qed.

Lemma hit_confidence_le_100 (d : Q) : 0 <= d -> hit_confidence d <= 100.
Proof.
  intro Hd. destruct (hit_confidence_cases d) as [[H ->] | [H ->]]; lra.
Qed.

Lemma hit_confidence_far (d : Q) : 5 <= d -> hit_confidence d == 0.
Proof.
  intro Hd. destruct (hit_confidence_cases d) as [[H ->] | [H ->]]; lra.
Qed.

Lemma hit_confidence_antitone (d1 d2 : Q) :
  d1 <= d2 -> hit_confidence d2 <= hit_confidence d1.
Proof.
  intro Hd.
  destruct (hit_confidence_cases d1) as [[H1 ->] | [H1 ->]];
    destruct (hit_confidence_cases d2) as [[H2 ->] | [H2 ->]]; lra.
Qed.

Lemma cap_cases (c : Q) :
  (c < 95 /\ Py.min 95 c = c) \/ (95 <= c /\ Py.min 95 c = 95).
Proof.
  unfold Py.min. destruct (Py.ltb c 95) eqn:E.
  - left. apply ltb_lt in E. auto.
  - right. apply ltb_ge in E. auto.
Qed.

Lemma cap_range (c : Q) : 0 <= c -> 0 <= Py.min 95 c <= 95.
Proof.
  intro Hc. destruct (cap_cases c) as [[H ->] | [H ->]]; lra.
Qed.

End Confidence.

(* ================================================================= *)
(** ** The rows returned by the index *)

Section IndexRows.

Import Faiss.

Lemma square_nonneg (a : Q) : 0 <= a * a.
Proof. nra. Qed.

Lemma fvec_L2sqr_nonneg (x y : vec) : 0 <= fvec_L2sqr x y.
Proof.
  revert y. induction x as [|a x IH]; intros [|b y]; cbn [fvec_L2sqr]; try lra.
  specialize (IH y).
  pose proof (square_nonneg (a - b)). lra.
Qed.

Lemma insert_perm (e : Q * Z) (row : list (Q * Z)) :
  Permutation (e :: row) (insert e row).
Proof.
  induction row as [|h t IH]; simpl.
  - reflexivity.
  - destruct (Qle_bool (fst e) (fst h)).
    + reflexivity.
    + rewrite perm_swap. apply perm_skip, IH.
Qed.

Lemma sort_perm (row : list (Q * Z)) :
  Permutation row (fold_right insert [] row).
Proof.
  induction row as [|e row IH]; simpl.
  - reflexivity.
  - rewrite <- insert_perm. apply perm_skip, IH.
Qed.

Lemma labels_length (n : nat) : length (labels n) = n.
Proof. unfold labels. now rewrite length_map, length_seq. Qed.

Lemma combine_snd (A B : Type) (xs : list A) (ys : list B) :
  length xs = length ys -> map snd (combine xs ys) = ys.
Proof.
  revert ys. induction xs as [|a xs IH]; intros [|b ys]; simpl;
    try discriminate; try reflexivity.
  intros [= H]. f_equal. apply IH, H.
Qed.

Lemma ranked_perm (index : IndexFlatL2) (x : vec) :
  Permutation
    (filter within_range
       (combine (map (fvec_L2sqr x) (xb index)) (labels (ntotal index))))
    (ranked index x).
Proof. apply sort_perm. Qed.

Lemma slots_length (index : IndexFlatL2) (x : vec) :
  length (combine (map (fvec_L2sqr x) (xb index)) (labels (ntotal index)))
  = ntotal index.
Proof.
  rewrite length_combine, length_map, labels_length.
  unfold ntotal. apply Nat.min_id.
Qed.

Lemma ranked_length (index : IndexFlatL2) (x : vec) :
  (length (ranked index x) <= ntotal index)%nat.
Proof.
  rewrite <- (Permutation_length (ranked_perm index x)).
  rewrite <- (slots_length index x) at 2. apply filter_length_le.
Qed.

Lemma filter_keeps_all (A : Type) (f : A -> bool) (xs : list A) :
  length (filter f xs) = length xs -> filter f xs = xs.
Proof.
  induction xs as [|a xs IH]; simpl; [reflexivity|].
  destruct (f a); simpl; intro H.
  - f_equal. apply IH. lia.
  - pose proof (filter_length_le f xs). lia.
Qed.

(** Every slot found by the exhaustive search carries the label of a
    stored vector and a distance that is not negative. *)
Lemma ranked_slot (index : IndexFlatL2) (x : vec) (dist : Q) (idx : Z) :
  In (dist, idx) (ranked index x) ->
  0 <= dist /\ (0 <= idx < Z.of_nat (ntotal index))%Z.
Proof.
  intro H. apply (Permutation_in _ (Permutation_sym (ranked_perm index x))) in H.
  apply filter_In in H. destruct H as [H _].
  split.
  - apply in_combine_l in H. apply in_map_iff in H.
    destruct H as [v [<- _]]. apply fvec_L2sqr_nonneg.
  - apply in_combine_r in H. unfold labels in H. apply in_map_iff in H.
    destruct H as [n [<- Hn]]. apply in_seq in Hn. lia.
Qed.

(** When no stored vector is out of range, every label is in the row. *)
Lemma ranked_labels (index : IndexFlatL2) (x : vec) :
  length (ranked index x) = ntotal index ->
  Permutation (labels (ntotal index)) (map snd (ranked index x)).
Proof.
  intro Hfull. rewrite <- (ranked_perm index x).
  rewrite filter_keeps_all.
  - rewrite combine_snd; [reflexivity|].
    rewrite length_map, labels_length. reflexivity.
  - rewrite (Permutation_length (ranked_perm index x)), Hfull.
    symmetry. apply slots_length.
Qed.

End IndexRows.

(* ================================================================= *)
(** ** The search loop *)

Section SearchLoop.

Import HealthcareDiagnoser.

Lemma search_row (index : Faiss.IndexFlatL2) (x : vec) (k : nat)
  (row : list (Q * Z)) :
  Faiss.search index x k = Py.Returned row ->
  (length x = Faiss.d index /\ (0 < k)%nat) /\
  row = firstn k (Faiss.ranked index x)
        ++ repeat (Faiss.FLT_MAX, (-1)%Z)
                  (k - length (firstn k (Faiss.ranked index x))).
Proof.
  unfold Faiss.search.
  destruct (Nat.eqb (length x) (Faiss.d index)) eqn:E; [|discriminate].
  destruct (Nat.ltb 0 k) eqn:K; [|discriminate].
  intros [= <-]. apply Nat.eqb_eq in E. apply Nat.ltb_lt in K. auto.
Qed.

Lemma search_row_length (index : Faiss.IndexFlatL2) (x : vec) (k : nat)
  (row : list (Q * Z)) :
  Faiss.search index x k = Py.Returned row -> length row = k.
Proof.
  intro H. apply search_row in H. destruct H as [_ ->].
  rewrite length_app, repeat_length, length_firstn. lia.
Qed.

(** The search of the index returns exactly when the query has the
    dimension of the index and [k] is positive. *)
Lemma search_returns (index : Faiss.IndexFlatL2) (x : vec) (k : nat) :
  length x = Faiss.d index -> (0 < k)%nat ->
  Faiss.search index x k =
  Py.Returned (firstn k (Faiss.ranked index x)
               ++ repeat (Faiss.FLT_MAX, (-1)%Z)
                         (k - length (firstn k (Faiss.ranked index x)))).
Proof.
  intros Hdim Hk. unfold Faiss.search.
  apply Nat.eqb_eq in Hdim. apply Nat.ltb_lt in Hk. now rewrite Hdim, Hk.
Qed.

Lemma search_raises (index : Faiss.IndexFlatL2) (x : vec) (k : nat) (e : Py.exn) :
  Faiss.search index x k = Py.Raised e ->
  e = Py.AssertionError /\ (length x <> Faiss.d index \/ k = 0%nat).
Proof.
  unfold Faiss.search.
  destruct (Nat.eqb (length x) (Faiss.d index)) eqn:E.
  - destruct (Nat.ltb 0 k) eqn:K; [discriminate|].
    intros [= <-]. apply Nat.ltb_ge in K. split; [reflexivity | right; lia].
  - intros [= <-]. apply Nat.eqb_neq in E. auto.
Qed.

Lemma FLT_MAX_pos : 0 <= Faiss.FLT_MAX.
Proof. unfold Faiss.FLT_MAX. unfold Qle. simpl. lia. Qed.

Lemma search_slot (index : Faiss.IndexFlatL2) (x : vec) (k : nat)
  (row : list (Q * Z)) (dist : Q) (idx : Z) :
  Faiss.search index x k = Py.Returned row ->
  In (dist, idx) row -> 0 <= dist.
Proof.
  intros H Hin. apply search_row in H. destruct H as [_ ->].
  apply in_app_or in Hin. destruct Hin as [Hin | Hin].
  - apply In_firstn in Hin. apply ranked_slot in Hin. tauto.
  - apply repeat_spec in Hin. injection Hin as -> _. apply FLT_MAX_pos.
Qed.

(** What the loop appends: one hit per slot it keeps, built from the
    metadata entry its label selects. *)
Lemma collect_hits_inv (md : list Meta.t) (row : list (Q * Z)) :
  forall results hits,
    collect_hits md row results = Py.Returned hits ->
    exists new,
      hits = results ++ new /\
      Forall (fun h => exists dist idx m,
                  In (dist, idx) row /\ In m md /\ h = hit_of m dist) new.
Proof.
  induction row as [|[dist idx] row IH]; intros results hits H; simpl in H.
  - injection H as <-. exists []. split; [now rewrite app_nil_r | constructor].
  - destruct (idx <? Z.of_nat (length md))%Z.
    + destruct (Py.getitem md idx) as [m|e] eqn:G; simpl in H; [|discriminate].
      apply IH in H. destruct H as [new [-> Hnew]].
      exists (hit_of m dist :: new). split.
      * now rewrite <- app_assoc.
      * constructor.
        -- exists dist, idx, m. split; [now left|].
           split; [eapply getitem_In, G | reflexivity].
        -- eapply Forall_impl; [|exact Hnew].
           intros h [d' [i' [m' [Hin Hm]]]]. exists d', i', m'.
           split; [now right | exact Hm].
    + apply IH in H. destruct H as [new [-> Hnew]].
      exists new. split; [reflexivity|].
      eapply Forall_impl; [|exact Hnew].
      intros h [d' [i' [m' [Hin Hm]]]]. exists d', i', m'.
      split; [now right | exact Hm].
Qed.

Lemma collect_hits_app (md : list Meta.t) (r1 r2 : list (Q * Z)) :
  forall results,
    collect_hits md (r1 ++ r2) results =
    (hits <- collect_hits md r1 results ;; collect_hits md r2 hits).
Proof.
  induction r1 as [|[dist idx] r1 IH]; intro results; simpl.
  - reflexivity.
  - destruct (idx <? Z.of_nat (length md))%Z; [|apply IH].
    destruct (Py.getitem md idx); simpl; [apply IH | reflexivity].
Qed.

Lemma getitem_nat (A : Type) (xs : list A) (n : nat) (x : A) :
  nth_error xs n = Some x -> Py.getitem xs (Z.of_nat n) = Py.Returned x.
Proof.
  intro H. unfold Py.getitem.
  destruct (Z.of_nat n <? 0)%Z eqn:E; [apply Z.ltb_lt in E; lia|].
  rewrite E, Nat2Z.id, H. reflexivity.
Qed.

Lemma getitem_last (A : Type) (xs : list A) (x : A) :
  nth_error xs (length xs - 1) = Some x ->
  Py.getitem xs (-1) = Py.Returned x.
Proof.
  intro H. unfold Py.getitem.
  assert (Hlen : (0 < length xs)%nat).
  { destruct xs; [discriminate | simpl; lia]. }
  change (-1 <? 0)%Z with true. cbv iota.
  destruct (-1 + Z.of_nat (length xs) <? 0)%Z eqn:E;
    [apply Z.ltb_lt in E; lia|].
  replace (Z.to_nat (-1 + Z.of_nat (length xs))) with (length xs - 1)%nat by lia.
  now rewrite H.
Qed.

(** Slots whose labels lie inside the metadata table give one hit each,
    in the order of the row. *)
Lemma collect_hits_valid (md : list Meta.t) (row : list (Q * Z)) :
  Forall (fun slot => (0 <= snd slot < Z.of_nat (length md))%Z) row ->
  forall results,
  exists new,
    collect_hits md row results = Py.Returned (results ++ new) /\
    Forall2 (fun slot h =>
               exists m, nth_error md (Z.to_nat (snd slot)) = Some m /\
                         h = hit_of m (fst slot)) row new.
Proof.
  induction 1 as [|[dist idx] row Hidx Hrow IH]; intro results; simpl.
  - exists []. rewrite app_nil_r. split; [reflexivity | constructor].
  - simpl in Hidx.
    destruct (idx <? Z.of_nat (length md))%Z eqn:E;
      [|apply Z.ltb_ge in E; lia].
    destruct (nth_error md (Z.to_nat idx)) as [m|] eqn:N.
    2:{ apply nth_error_None in N. lia. }
    assert (G : Py.getitem md idx = Py.Returned m).
    { apply getitem_nat in N. now rewrite Z2Nat.id in N by lia. }
    rewrite G. cbn [Py.bind]. fold (hit_of m dist).
    destruct (IH (results ++ [hit_of m dist])) as [new [Hc Hnew]].
    exists (hit_of m dist :: new). split.
    + rewrite Hc. now rewrite <- app_assoc.
    + constructor; [|exact Hnew]. exists m. auto.
Qed.

(** The padding slots of a row, for a metadata table that is not empty:
    each gives a hit built from the last metadata entry. *)
Lemma collect_hits_padding (md : list Meta.t) (m : Meta.t) (n : nat) :
  nth_error md (length md - 1) = Some m ->
  forall results,
    collect_hits md (repeat (Faiss.FLT_MAX, (-1)%Z) n) results =
    Py.Returned (results ++ repeat (hit_of m Faiss.FLT_MAX) n).
Proof.
  intro Hm. induction n as [|n IH]; intro results; simpl.
  - now rewrite app_nil_r.
  - destruct (-1 <? Z.of_nat (length md))%Z eqn:E;
      [|apply Z.ltb_ge in E; lia].
    rewrite (getitem_last _ Hm). cbn [Py.bind]. fold (hit_of m Faiss.FLT_MAX).
    rewrite IH. now rewrite <- app_assoc.
Qed.

End SearchLoop.

(* ================================================================= *)
(** ** The dictionary of unique diseases *)

Section Dictionary.

Import HealthcareDiagnoser.

Lemma dict_get_None (dt : dict) (key : string) :
  dict_get dt key = None <-> ~ In key (map fst dt).
Proof.
  induction dt as [|[k v] dt IH]; simpl.
  - tauto.
  - destruct (String.eqb k key) eqn:E.
    + apply String.eqb_eq in E. split; [discriminate | intro H; tauto].
    + apply String.eqb_neq in E. rewrite IH. tauto.
Qed.

Lemma dict_get_Some (dt : dict) (key : string) (v : Hit.t) :
  dict_get dt key = Some v -> In (key, v) dt.
Proof.
  induction dt as [|[k w] dt IH]; simpl; [discriminate|].
  destruct (String.eqb k key) eqn:E.
  - apply String.eqb_eq in E. intros [= <-]. left. now subst.
  - intro H. right. apply IH, H.
Qed.

Lemma dict_unique (dt : dict) (key : string) (v w : Hit.t) :
  NoDup (map fst dt) -> In (key, v) dt -> In (key, w) dt -> v = w.
Proof.
  induction dt as [|[k u] dt IH]; simpl; [tauto|].
  intros Hnd Hv Hw. inversion Hnd as [|? ? Hk Hnd']; subst.
  destruct Hv as [Hv | Hv]; destruct Hw as [Hw | Hw].
  - congruence.
  - exfalso. apply Hk. apply (in_map fst) in Hw. simpl in Hw. congruence.
  - exfalso. apply Hk. apply (in_map fst) in Hv. simpl in Hv. congruence.
  - apply IH; assumption.
Qed.

Lemma dict_set_fresh (dt : dict) (key : string) (v : Hit.t) :
  ~ In key (map fst dt) -> dict_set dt key v = dt ++ [(key, v)].
Proof.
  induction dt as [|[k w] dt IH]; simpl; intro H.
  - reflexivity.
  - destruct (String.eqb k key) eqn:E.
    + apply String.eqb_eq in E. tauto.
    + f_equal. apply IH. tauto.
Qed.

Lemma dict_set_keys (dt : dict) (key : string) (v : Hit.t) :
  In key (map fst dt) -> map fst (dict_set dt key v) = map fst dt.
Proof.
  induction dt as [|[k w] dt IH]; simpl; intro H.
  - tauto.
  - destruct (String.eqb k key) eqn:E.
    + reflexivity.
    + apply String.eqb_neq in E. simpl. f_equal. apply IH.
      destruct H; [contradiction | assumption].
Qed.

Lemma dict_set_new (dt : dict) (key : string) (v : Hit.t) :
  In (key, v) (dict_set dt key v).
Proof.
  induction dt as [|[k w] dt IH]; simpl.
  - now left.
  - destruct (String.eqb k key) eqn:E.
    + apply String.eqb_eq in E. subst. now left.
    + now right.
Qed.

Lemma dict_set_old (dt : dict) (key : string) (v : Hit.t) (k : string)
  (w : Hit.t) :
  In (k, w) (dict_set dt key v) -> (k = key /\ w = v) \/ In (k, w) dt.
Proof.
  induction dt as [|[k' u] dt IH]; simpl.
  - intros [[= <- <-] | []]. now left.
  - destruct (String.eqb k' key) eqn:E.
    + apply String.eqb_eq in E. subst.
      intros [[= <- <-] | H]; [now left | right; now right].
    + intros [H | H]; [right; now left|].
      apply IH in H. tauto.
Qed.

Lemma dedup_inv_nil : dedup_inv [] [].
Proof.
  split; simpl; [constructor | tauto | tauto].
Qed.

Lemma dedup_inv_step (seen : list Hit.t) (dt : dict) (h : Hit.t) :
  dedup_inv seen dt -> dedup_inv (seen ++ [h]) (dedup_step dt h).
Proof.
  intros [Hnd Hentry Hseen]. unfold dedup_step.
  destruct (dict_get dt (Hit.disease h)) as [kept|] eqn:G.
  - pose proof (dict_get_Some _ _ G) as Hkept.
    assert (Hkey : In (Hit.disease h) (map fst dt)).
    { apply (in_map fst) in Hkept. exact Hkept. }
    destruct (Py.ltb (Hit.confidence kept) (Hit.confidence h)) eqn:L.
    + apply ltb_lt in L.
      assert (Hnd' : NoDup (map fst (dict_set dt (Hit.disease h) h))).
      { now rewrite dict_set_keys. }
      split.
      * exact Hnd'.
      * intros name x Hin.
        destruct (string_dec name (Hit.disease h)) as [-> | Hne].
        -- assert (x = h) as ->.
           { eapply dict_unique; [exact Hnd' | exact Hin | apply dict_set_new]. }
           split; [reflexivity|]. split; [apply in_or_app; right; now left|].
           intros h' Hh' Hname. apply in_app_or in Hh'.
           destruct Hh' as [Hh' | [<- | []]]; [|lra].
           destruct (Hentry _ _ Hkept) as [_ [_ Hmax]].
           specialize (Hmax h' Hh' Hname). lra.
        -- apply dict_set_old in Hin. destruct Hin as [[Heq _] | Hin]; [contradiction|].
           destruct (Hentry _ _ Hin) as [Hd [Hs Hmax]].
           split; [exact Hd|]. split; [apply in_or_app; now left|].
           intros h' Hh' Hname. apply in_app_or in Hh'.
           destruct Hh' as [Hh' | [<- | []]]; [now apply Hmax | congruence].
      * intros x Hx. rewrite dict_set_keys by exact Hkey.
        apply in_app_or in Hx. destruct Hx as [Hx | [<- | []]];
          [now apply Hseen | exact Hkey].
    + apply ltb_ge in L. split.
      * exact Hnd.
      * intros name x Hin. destruct (Hentry _ _ Hin) as [Hd [Hs Hmax]].
        split; [exact Hd|]. split; [apply in_or_app; now left|].
        intros h' Hh' Hname. apply in_app_or in Hh'.
        destruct Hh' as [Hh' | [<- | []]]; [now apply Hmax|].
        rewrite Hname in Hkept. assert (x = kept) as ->; [|exact L].
        eapply dict_unique; [exact Hnd | exact Hin | exact Hkept].
      * intros x Hx. apply in_app_or in Hx.
        destruct Hx as [Hx | [<- | []]]; [now apply Hseen | exact Hkey].
  - apply dict_get_None in G. rewrite dict_set_fresh by exact G. split.
    + rewrite map_app. simpl. apply NoDup_app_fresh; assumption.
    + intros name x Hin. apply in_app_or in Hin.
      destruct Hin as [Hin | [[= <- <-] | []]].
      * destruct (Hentry _ _ Hin) as [Hd [Hs Hmax]].
        split; [exact Hd|]. split; [apply in_or_app; now left|].
        intros h' Hh' Hname. apply in_app_or in Hh'.
        destruct Hh' as [Hh' | [<- | []]]; [now apply Hmax|].
        exfalso. apply G. rewrite Hname. apply (in_map fst) in Hin. exact Hin.
      * split; [reflexivity|]. split; [apply in_or_app; right; now left|].
        intros h' Hh' Hname. apply in_app_or in Hh'.
        destruct Hh' as [Hh' | [<- | []]]; [|lra].
        exfalso. apply G. rewrite <- Hname. now apply Hseen.
    + intros x Hx. rewrite map_app. apply in_or_app. simpl.
      apply in_app_or in Hx. destruct Hx as [Hx | [<- | []]];
        [left; now apply Hseen | right; now left].
Qed.

Lemma dedup_inv_fold (hits seen : list Hit.t) (dt : dict) :
  dedup_inv seen dt -> dedup_inv (seen ++ hits) (fold_left dedup_step hits dt).
Proof.
  revert seen dt. induction hits as [|h hits IH]; intros seen dt H; simpl.
  - now rewrite app_nil_r.
  - replace (seen ++ h :: hits) with ((seen ++ [h]) ++ hits)
      by now rewrite <- app_assoc.
    apply IH, dedup_inv_step, H.
Qed.

Lemma deduplicate_inv (hits : list Hit.t) : dedup_inv hits (deduplicate hits).
Proof. apply (dedup_inv_fold hits dedup_inv_nil). Qed.

Lemma dedup_step_keys (dt : dict) (h : Hit.t) :
  map fst (dedup_step dt h) = first_seen_step (map fst dt) (Hit.disease h).
Proof.
  unfold dedup_step, first_seen_step.
  destruct (dict_get dt (Hit.disease h)) as [kept|] eqn:G.
  - apply dict_get_Some in G. apply (in_map fst) in G. simpl in G.
    destruct (in_dec string_dec (Hit.disease h) (map fst dt)); [|contradiction].
    destruct (Py.ltb (Hit.confidence kept) (Hit.confidence h));
      [now apply dict_set_keys | reflexivity].
  - apply dict_get_None in G.
    destruct (in_dec string_dec (Hit.disease h) (map fst dt)); [contradiction|].
    rewrite dict_set_fresh by exact G. now rewrite map_app.
Qed.

Lemma dedup_fold_keys (hits : list Hit.t) :
  forall dt,
    map fst (fold_left dedup_step hits dt) =
    fold_left first_seen_step (map Hit.disease hits) (map fst dt).
Proof.
  induction hits as [|h hits IH]; intro dt; simpl.
  - reflexivity.
  - now rewrite IH, dedup_step_keys.
Qed.

End Dictionary.

(* ================================================================= *)
(** ** Ranking *)

Section Ranking.

Import HealthcareDiagnoser.

Lemma insert_desc_perm (x : Hit.t) (xs : list Hit.t) :
  Permutation (x :: xs) (insert_desc x xs).
Proof.
  induction xs as [|y ys IH]; simpl.
  - reflexivity.
  - destruct (Py.ltb (Hit.confidence x) (Hit.confidence y)).
    + rewrite perm_swap. apply perm_skip, IH.
    + reflexivity.
Qed.

Lemma sorted_perm (xs : list Hit.t) :
  Permutation xs (sorted_by_confidence_desc xs).
Proof.
  induction xs as [|x xs IH]; simpl.
  - reflexivity.
  - rewrite <- insert_desc_perm. apply perm_skip, IH.
Qed.

Lemma insert_desc_descending (x : Hit.t) (xs : list Hit.t) :
  descending xs -> descending (insert_desc x xs).
Proof.
  induction 1 as [|y ys Hys IH Hy]; simpl.
  - repeat constructor.
  - destruct (Py.ltb (Hit.confidence x) (Hit.confidence y)) eqn:E.
    + apply ltb_lt in E. constructor; [exact IH|].
      apply (Permutation_Forall (insert_desc_perm x ys)).
      constructor; [lra | exact Hy].
    + apply ltb_ge in E. constructor; [constructor; assumption|].
      constructor; [exact E|].
      eapply Forall_impl; [|exact Hy]. intros z Hz. simpl in Hz. lra.
Qed.

Lemma sorted_descending (xs : list Hit.t) :
  descending (sorted_by_confidence_desc xs).
Proof.
  induction xs as [|x xs IH]; simpl.
  - constructor.
  - apply insert_desc_descending, IH.
Qed.

Lemma insert_desc_stable (c : Q) (x : Hit.t) (xs : list Hit.t) :
  with_confidence c (insert_desc x xs) = with_confidence c (x :: xs).
Proof.
  unfold with_confidence. induction xs as [|y ys IH]; simpl.
  - reflexivity.
  - destruct (Py.ltb (Hit.confidence x) (Hit.confidence y)) eqn:E;
      [|reflexivity].
    apply ltb_lt in E. simpl. rewrite IH. simpl.
    destruct (Qeq_bool (Hit.confidence x) c) eqn:Ex;
      destruct (Qeq_bool (Hit.confidence y) c) eqn:Ey; try reflexivity.
    apply Qeq_bool_iff in Ex, Ey. lra.
Qed.

Lemma sorted_stable (c : Q) (xs : list Hit.t) :
  with_confidence c (sorted_by_confidence_desc xs) = with_confidence c xs.
Proof.
  induction xs as [|x xs IH]; simpl.
  - reflexivity.
  - rewrite insert_desc_stable. unfold with_confidence in *. simpl.
    now rewrite IH.
Qed.

End Ranking.

(* ================================================================= *)
(** ** Assembling the diagnoses *)

Section Assembling.

Import HealthcareDiagnoser.

Lemma lookup_earliest (md : list Meta.t) (name : string) (m : Meta.t) :
  get_complete_disease_info_from md name = Some m -> earliest_match md name m.
Proof.
  induction md as [|m0 md IH]; simpl; [discriminate|].
  destruct (String.eqb (Py.lower (Meta.disease m0)) (Py.lower name)) eqn:E.
  - intros [= <-]. apply String.eqb_eq in E.
    exists 0%nat. split; [reflexivity|]. split; [exact E|].
    intros j m' Hj. lia.
  - intro H. apply IH in H. destruct H as [i [Hi [Hm Hfirst]]].
    apply String.eqb_neq in E.
    exists (S i). split; [exact Hi|]. split; [exact Hm|].
    intros [|j] m' Hj Hnth; simpl in Hnth.
    + injection Hnth as <-. exact E.
    + apply (Hfirst j); [lia | exact Hnth].
Qed.

Lemma earliest_match_In (md : list Meta.t) (name : string) (m : Meta.t) :
  earliest_match md name m -> In m md.
Proof.
  intros [i [Hi _]]. eapply nth_error_In, Hi.
Qed.

Lemma assemble_inv (md : list Meta.t) (hs : list Hit.t) :
  forall acc dg,
    In dg (fold_left (assemble md) hs acc) ->
    In dg acc \/
    exists h m, In h hs /\
                get_complete_disease_info_from md (Hit.disease h) = Some m /\
                dg = diagnosis_of m (Hit.confidence h).
Proof.
  induction hs as [|h hs IH]; intros acc dg H; simpl in H.
  - now left.
  - apply IH in H. destruct H as [H | [h' [m [Hin Hm]]]].
    + unfold assemble in H.
      destruct (get_complete_disease_info_from md (Hit.disease h)) as [m|] eqn:G.
      * apply in_app_or in H. destruct H as [H | [<- | []]]; [now left|].
        right. exists h, m. split; [now left|]. split; [exact G | reflexivity].
      * now left.
    + right. exists h', m. split; [now right | exact Hm].
Qed.

(** Every diagnosis comes from an entry of the dictionary of unique
    diseases and from the earliest metadata entry that matches its name
    up to letter case. *)
Lemma rank_and_assemble_inv (md : list Meta.t) (hits : list Hit.t)
  (dg : Diagnosis.t) :
  In dg (rank_and_assemble md hits) ->
  exists h m,
    In (Hit.disease h, h) (deduplicate hits) /\
    earliest_match md (Hit.disease h) m /\
    dg = diagnosis_of m (Hit.confidence h).
Proof.
  unfold rank_and_assemble. intro H. apply assemble_inv in H.
  destruct H as [[] | [h [m [Hin [Hm ->]]]]].
  exists h, m. split; [|split; [apply lookup_earliest, Hm | reflexivity]].
  apply In_firstn in Hin.
  apply (Permutation_in _ (Permutation_sym (sorted_perm _))) in Hin.
  unfold dict_values in Hin. apply in_map_iff in Hin.
  destruct Hin as [[name h'] [Heq Hin]]. simpl in Heq. subst h'.
  destruct (inv_entry (deduplicate_inv hits) _ _ Hin) as [-> _].
  exact Hin.
Qed.

Lemma diagnose_inv (self : t) (text : string) (k : nat)
  (diags : list Diagnosis.t) :
  diagnose self text k = Py.Returned diags ->
  exists hits,
    search_similar_diseases self text k = Py.Returned hits /\
    diags = rank_and_assemble (metadata self) hits.
Proof.
  unfold diagnose.
  destruct (search_similar_diseases self text k) as [hits|e]; simpl;
    [|discriminate].
  intros [= <-]. exists hits. auto.
Qed.

(** The hits of a search: each is built from a metadata entry and from a
    distance that is not negative. *)
Lemma search_hits_inv (self : t) (text : string) (k : nat)
  (hits : list Hit.t) :
  search_similar_diseases self text k = Py.Returned hits ->
  Forall (fun h => exists dist m,
              0 <= dist /\ In m (metadata self) /\ h = hit_of m dist) hits.
Proof.
  unfold search_similar_diseases.
  destruct (Faiss.search (index self) (embedder self text) k) as [row|e] eqn:S;
    simpl; [|discriminate].
  intro H. apply collect_hits_inv in H. destruct H as [new [-> Hnew]].
  simpl. eapply Forall_impl; [|exact Hnew].
  intros h [dist [idx [m [Hin [Hm ->]]]]]. exists dist, m.
  split; [eapply search_slot; eassumption | auto].
Qed.

End Assembling.

(* ================================================================= *)
(** ** The two tables of the builder *)

Section Tables.

Import FAISSCreator.

Lemma meta_copy (r : Meta.t) :
  Meta.mk (Meta.disease r) (Meta.symptoms r) (Meta.medicines r)
          (Meta.precautions r) = r.
Proof. now destruct r. Qed.

Lemma store_variations (r : Meta.t) (docs : list string) :
  forall tb,
    fold_left (store_variation r) docs tb =
    (fst tb ++ docs, snd tb ++ map (fun _ => r) docs).
Proof.
  induction docs as [|doc docs IH]; intro tb; simpl.
  - rewrite !app_nil_r. now destruct tb.
  - rewrite IH. unfold store_variation. simpl.
    rewrite meta_copy, <- !app_assoc. reflexivity.
Qed.

Lemma add_diseases (disease_data : list Meta.t) :
  forall tb,
    fold_left add_disease disease_data tb =
    (fst tb ++ map fst (paired disease_data),
     snd tb ++ map snd (paired disease_data)).
Proof.
  induction disease_data as [|r data IH]; intro tb; simpl.
  - rewrite !app_nil_r. now destruct tb.
  - rewrite IH. unfold add_disease. rewrite store_variations. simpl.
    unfold paired. simpl. rewrite !map_app, !map_map. simpl.
    rewrite map_id, <- !app_assoc. reflexivity.
Qed.

Lemma combine_fst_snd (A B : Type) (ps : list (A * B)) :
  combine (map fst ps) (map snd ps) = ps.
Proof.
  induction ps as [|[a b] ps IH]; simpl; [reflexivity | now rewrite IH].
Qed.

Lemma combine_nth (A B : Type) (xs : list A) (ys : list B) (i : nat)
  (a : A) (b : B) :
  nth_error xs i = Some a -> nth_error ys i = Some b ->
  nth_error (combine xs ys) i = Some (a, b).
Proof.
  revert ys i. induction xs as [|x xs IH]; intros [|y ys] [|i]; simpl;
    try discriminate.
  - congruence.
  - apply IH.
Qed.

Lemma knowledge_base_tables (w : world) (documents : list string)
  (metadata : list Meta.t) :
  create_knowledge_base w = Py.Returned (documents, metadata) ->
  documents = map fst (paired (parse_health_file w)) /\
  metadata = map snd (paired (parse_health_file w)).
Proof.
  unfold create_knowledge_base.
  destruct (negb (check_file w)); [discriminate|].
  destruct (parse_health_file w) as [|r data] eqn:P.
  - simpl. intros [= <- <-]. auto.
  - cbn [Py.truthy negb]. rewrite add_diseases. simpl.
    intros [= <- <-]. auto.
Qed.

Lemma paired_nth (disease_data : list Meta.t) (i : nat) (doc : string)
  (r : Meta.t) :
  nth_error (paired disease_data) i = Some (doc, r) ->
  In r disease_data /\ In doc (doc_variations r).
Proof.
  intro H. apply nth_error_In in H. unfold paired in H.
  apply in_flat_map in H. destruct H as [r' [Hr' H]].
  apply in_map_iff in H. destruct H as [doc' [[= <- <-] Hdoc]]. auto.
Qed.

End Tables.

(* ================================================================= *)
(** ** The embedding on the sample data *)

Example getitem_counts_from_the_end :
  Py.getitem [Sample.flu; Sample.migraine] (-1) = Py.Returned Sample.migraine /\
  Py.getitem [Sample.flu; Sample.migraine] 0 = Py.Returned Sample.flu /\
  Py.getitem [Sample.flu; Sample.migraine] 2 = Py.Raised Py.IndexError /\
  Py.getitem [Sample.flu; Sample.migraine] (-3) = Py.Raised Py.IndexError /\
  Py.getitem (@nil Meta.t) (-1) = Py.Raised Py.IndexError.
Proof. repeat split. Qed.

Example parse_strips_and_skips :
  FAISSCreator.parse_health_file Sample.world_ok = [Sample.flu; Sample.migraine].
Proof. reflexivity. Qed.

Example documents_of_flu :
  FAISSCreator.doc_variations Sample.flu =
    ["DISEASE: Flu. SYMPTOMS: fever, cough. MEDICINES: Paracetamol. PRECAUTIONS: Rest.";
     "Flu SYMPTOMS: fever, cough. Common signs include fever, cough.";
     "Flu TREATMENT: Medications include Paracetamol. Paracetamol are commonly prescribed.";
     "Flu PREVENTION: Rest. Recommended precautions: Rest."]%string.
Proof. reflexivity. Qed.

Example documents_of_migraine :
  FAISSCreator.doc_variations Sample.migraine =
    ["DISEASE: Migraine. SYMPTOMS: headache, nausea. PRECAUTIONS: Avoid light.";
     "Migraine SYMPTOMS: headache, nausea. Common signs include headache, nausea.";
     "Migraine PREVENTION: Avoid light. Recommended precautions: Avoid light."]%string.
Proof. reflexivity. Qed.

Example ties_keep_their_order :
  HealthcareDiagnoser.sorted_by_confidence_desc
    [Sample.hit "A" 50; Sample.hit "B" 70; Sample.hit "C" 50; Sample.hit "D" 70] =
  [Sample.hit "B" 70; Sample.hit "D" 70; Sample.hit "A" 50; Sample.hit "C" 50].
Proof. reflexivity. Qed.

Example diagnose_two_records :
  HealthcareDiagnoser.diagnose Sample.two_records "fever and cough" 15 =
    Py.Returned
      [Diagnosis.mk "Flu" ["fever"; "cough"]%string ["Paracetamol"%string]
                    ["Rest"%string] 95;
       Diagnosis.mk "Migraine" ["headache"; "nausea"]%string []
                    ["Avoid light"%string] 80].
Proof. vm_compute. reflexivity. Qed.

Example load_needs_every_artifact :
  HealthcareDiagnoser.load_faiss_index Sample.embed Store.empty
    = Py.Raised Py.FileNotFoundError /\
  HealthcareDiagnoser.load_faiss_index Sample.embed Sample.folder_no_docs
    = Py.Raised Py.FileNotFoundError.
Proof. split; reflexivity. Qed.

(* ================================================================= *)
(** ** Properties of the specification *)

(** C5. For every disease record the synthesizer emits between one and four
    documents: the comprehensive view first, then the symptom-focused view
    exactly when [symptoms] is not empty, the treatment-focused view exactly
    when [medicines] is not empty and the prevention-focused view exactly
    when [precautions] is not empty. Three non-empty lists give four
    documents; three empty lists give the single comprehensive view, which
    is then the disease-name line alone. *)
Theorem C5_document_views :
  (forall r : Meta.t,
     FAISSCreator.doc_variations r =
       FAISSCreator.comprehensive_doc r
       :: (if Py.truthy (Meta.symptoms r)
           then [FAISSCreator.symptoms_doc r] else [])
       ++ (if Py.truthy (Meta.medicines r)
           then [FAISSCreator.treatment_doc r] else [])
       ++ (if Py.truthy (Meta.precautions r)
           then [FAISSCreator.prevention_doc r] else [])) /\
  (forall r : Meta.t,
     length (FAISSCreator.doc_variations r) =
       (1 + Nat.b2n (Py.truthy (Meta.symptoms r))
          + Nat.b2n (Py.truthy (Meta.medicines r))
          + Nat.b2n (Py.truthy (Meta.precautions r)))%nat /\
     (1 <= length (FAISSCreator.doc_variations r) <= 4)%nat) /\
  (forall name s ss m ms p ps,
     length (FAISSCreator.doc_variations
               (Meta.mk name (s :: ss) (m :: ms) (p :: ps))) = 4%nat) /\
  (forall name,
     FAISSCreator.doc_variations (Meta.mk name [] [] []) =
       [("DISEASE: " ++ name ++ ".")%string]).
Proof.
  split; [|split; [|split]].
  - intros [name [|s ss] [|m ms] [|p ps]]; reflexivity.
  - intros [name [|s ss] [|m ms] [|p ps]]; cbn; lia.
  - reflexivity.
  - intro name. unfold FAISSCreator.doc_variations, FAISSCreator.comprehensive_doc.
    simpl. reflexivity.
Qed.

(** C6. The ranked list is a rearrangement of the values of the dictionary
    of unique diseases in which confidence never increases, and hits of
    equal confidence keep the relative order they have in the dictionary
    (the sort is stable); the dictionary lists the names in the order in
    which the hits met each of them first. *)
Theorem C6_ranking_is_stable :
  forall hits : list Hit.t,
    Permutation
      (HealthcareDiagnoser.dict_values (HealthcareDiagnoser.deduplicate hits))
      (HealthcareDiagnoser.sorted_by_confidence_desc
         (HealthcareDiagnoser.dict_values (HealthcareDiagnoser.deduplicate hits))) /\
    descending
      (HealthcareDiagnoser.sorted_by_confidence_desc
         (HealthcareDiagnoser.dict_values (HealthcareDiagnoser.deduplicate hits))) /\
    (forall c : Q,
       with_confidence c
         (HealthcareDiagnoser.sorted_by_confidence_desc
            (HealthcareDiagnoser.dict_values (HealthcareDiagnoser.deduplicate hits))) =
       with_confidence c
         (HealthcareDiagnoser.dict_values (HealthcareDiagnoser.deduplicate hits))) /\
    map fst (HealthcareDiagnoser.deduplicate hits) =
      first_seen (map Hit.disease hits).
Proof.
  intro hits. split; [apply sorted_perm|].
  split; [apply sorted_descending|].
  split; [intro c; apply sorted_stable|].
  apply (dedup_fold_keys hits []).
Qed.

(** C4. Deduplication keys the hits by the disease name compared as a
    string, letter case included: the dictionary holds every name met
    exactly once, and the hit kept under a name is a hit of that name whose
    confidence no other hit of that name exceeds. Two hits of one name with
    confidences 80 and 40 leave the one with 80, in either order; names
    that differ in letter case are kept apart. *)
Theorem C4_dedup_keeps_max :
  (forall hits : list Hit.t,
     NoDup (map fst (HealthcareDiagnoser.deduplicate hits)) /\
     (forall name,
        In name (map Hit.disease hits) <->
        In name (map fst (HealthcareDiagnoser.deduplicate hits))) /\
     (forall name h,
        In (name, h) (HealthcareDiagnoser.deduplicate hits) ->
        Hit.disease h = name /\ In h hits /\
        forall h', In h' hits -> Hit.disease h' = name ->
                   Hit.confidence h' <= Hit.confidence h)) /\
  HealthcareDiagnoser.dict_values
    (HealthcareDiagnoser.deduplicate [Sample.hit "Flu" 80; Sample.hit "Flu" 40])
    = [Sample.hit "Flu" 80] /\
  HealthcareDiagnoser.dict_values
    (HealthcareDiagnoser.deduplicate [Sample.hit "Flu" 40; Sample.hit "Flu" 80])
    = [Sample.hit "Flu" 80] /\
  HealthcareDiagnoser.dict_values
    (HealthcareDiagnoser.deduplicate [Sample.hit "Flu" 80; Sample.hit "flu" 40])
    = [Sample.hit "Flu" 80; Sample.hit "flu" 40].
Proof.
  split; [|repeat split; reflexivity].
  intro hits. pose proof (deduplicate_inv hits) as [Hnd Hentry Hseen].
  split; [exact Hnd|]. split; [|exact Hentry].
  intro name. split.
  - intro H. apply in_map_iff in H. destruct H as [h [<- Hh]]. now apply Hseen.
  - intro H. apply in_map_iff in H. destruct H as [[k h] [<- Hin]].
    destruct (Hentry _ _ Hin) as [Hk [Hh _]]. simpl. rewrite <- Hk.
    now apply in_map.
Qed.

(** C3. The confidence of a hit at distance [d] is [max(0, 100 - 20 d)]: it
    lies between 0 and 100 for a distance that is not negative, it is 0
    from distance 5 on, and it does not increase when the distance grows.
    Every hit returned by a search carries this confidence for its own
    distance, which is not negative. The confidence of every diagnosis
    returned is [min(95, c)] for the confidence [c] of a returned hit and
    lies between 0 and 95. *)
Theorem C3_confidence_scale :
  (forall d : Q, HealthcareDiagnoser.hit_confidence d == Qmax 0 (100 - 20 * d)) /\
  (forall d : Q, 0 <= d -> 0 <= HealthcareDiagnoser.hit_confidence d <= 100) /\
  (forall d : Q, 5 <= d -> HealthcareDiagnoser.hit_confidence d == 0) /\
  (forall d1 d2 : Q,
     d1 <= d2 ->
     HealthcareDiagnoser.hit_confidence d2 <= HealthcareDiagnoser.hit_confidence d1) /\
  (forall self text k hits,
     HealthcareDiagnoser.search_similar_diseases self text k = Py.Returned hits ->
     forall h, In h hits ->
       Hit.confidence h = HealthcareDiagnoser.hit_confidence (Hit.distance h) /\
       0 <= Hit.distance h /\
       0 <= Hit.confidence h <= 100) /\
  (forall self text k diags,
     HealthcareDiagnoser.diagnose self text k = Py.Returned diags ->
     forall dg, In dg diags ->
       exists hits h,
         HealthcareDiagnoser.search_similar_diseases self text k = Py.Returned hits /\
         In h hits /\
         Diagnosis.confidence dg = Py.min 95 (Hit.confidence h) /\
         Diagnosis.confidence dg == Qmin 95 (Hit.confidence h) /\
         0 <= Diagnosis.confidence dg <= 95).
Proof.
  split; [exact hit_confidence_formula|].
  split; [intros d Hd; split;
          [apply hit_confidence_nonneg | now apply hit_confidence_le_100]|].
  split; [exact hit_confidence_far|].
  split; [exact hit_confidence_antitone|].
  split.
  - intros self text k hits Hs h Hh.
    apply search_hits_inv in Hs. rewrite Forall_forall in Hs.
    destruct (Hs h Hh) as [dist [m [Hd [_ ->]]]]. simpl.
    split; [reflexivity|]. split; [exact Hd|].
    split; [apply hit_confidence_nonneg | now apply hit_confidence_le_100].
  - intros self text k diags Hdiag dg Hdg.
    apply diagnose_inv in Hdiag. destruct Hdiag as [hits [Hs ->]].
    apply rank_and_assemble_inv in Hdg. destruct Hdg as [h [m [Hin [_ ->]]]].
    destruct (inv_entry (deduplicate_inv hits) _ _ Hin) as [_ [Hh _]].
    exists hits, h. split; [exact Hs|]. split; [exact Hh|]. simpl.
    split; [reflexivity|]. split; [apply py_min_Qmin|].
    apply cap_range.
    apply search_hits_inv in Hs. rewrite Forall_forall in Hs.
    destruct (Hs h Hh) as [dist [m' [_ [_ ->]]]]. simpl.
    apply hit_confidence_nonneg.
Qed.

(** C10. Every diagnosis returned carries the disease, symptoms, medicines
    and precautions of the earliest metadata entry whose name equals, up to
    letter case, the name of the deduplicated hit it stands for. So two
    metadata entries whose names differ in letter case only both resolve to
    the first of them: a call can return two diagnoses with the same record
    fields. *)
Theorem C10_lookup_ignores_case :
  (forall self text k diags,
     HealthcareDiagnoser.diagnose self text k = Py.Returned diags ->
     forall dg, In dg diags ->
       exists hits h m,
         HealthcareDiagnoser.search_similar_diseases self text k = Py.Returned hits /\
         In (Hit.disease h, h) (HealthcareDiagnoser.deduplicate hits) /\
         earliest_match (HealthcareDiagnoser.metadata self) (Hit.disease h) m /\
         same_record dg m) /\
  (HealthcareDiagnoser.metadata Sample.two_cases = [Sample.flu; Sample.flu_upper] /\
   Py.lower (Meta.disease Sample.flu) = Py.lower (Meta.disease Sample.flu_upper) /\
   exists d1 d2,
     HealthcareDiagnoser.diagnose Sample.two_cases "fever" 2 = Py.Returned [d1; d2] /\
     same_record d1 Sample.flu /\ same_record d2 Sample.flu).
Proof.
  split.
  - intros self text k diags Hdiag dg Hdg.
    apply diagnose_inv in Hdiag. destruct Hdiag as [hits [Hs ->]].
    apply rank_and_assemble_inv in Hdg. destruct Hdg as [h [m [Hin [Hm ->]]]].
    exists hits, h, m. repeat split; assumption.
  - split; [reflexivity|]. split; [reflexivity|].
    eexists; eexists. split; [vm_compute; reflexivity|].
    split; repeat split; reflexivity.
Qed.

(** C9. A build that succeeds leaves three tables in the folder, joined by
    position alone: the documents and the metadata have one size and, read
    side by side, are the document variations of the parsed records, each
    next to a copy of the record it was made from; the index holds the
    vectors the encoder returned, as many as there are documents when the
    encoder returns one vector per document. *)
Theorem C9_parallel_tables :
  forall (w : FAISSCreator.world) (folder folder' : Store.t),
    FAISSCreator.create_faiss_index w folder = (Py.Returned true, folder') ->
    exists index documents metadata,
      folder' = Store.mk true (Some index) (Some documents) (Some metadata) /\
      length documents = length metadata /\
      combine documents metadata = paired (FAISSCreator.parse_health_file w) /\
      (forall i doc,
         nth_error documents i = Some doc ->
         exists r,
           nth_error metadata i = Some r /\
           In r (FAISSCreator.parse_health_file w) /\
           In doc (FAISSCreator.doc_variations r)) /\
      ((forall encode texts embeddings,
          FAISSCreator.sentence_transformer w = Some encode ->
          encode texts = Some embeddings ->
          length embeddings = length texts) ->
       Faiss.ntotal index = length documents).
Proof.
  intros w folder folder'. unfold FAISSCreator.create_faiss_index.
  destruct (FAISSCreator.create_knowledge_base w) as [[documents metadata]|e] eqn:KB;
    [|discriminate].
  destruct (negb (Py.truthy documents)); [discriminate|].
  destruct (FAISSCreator.sentence_transformer w) as [encode|] eqn:ST;
    [|discriminate].
  destruct (encode documents) as [embeddings|] eqn:EN; [|discriminate].
  intros [= <-].
  apply knowledge_base_tables in KB. destruct KB as [Hdocs Hmeta].
  assert (Hcombine :
            combine documents metadata = paired (FAISSCreator.parse_health_file w)).
  { rewrite Hdocs, Hmeta. apply combine_fst_snd. }
  assert (Hlen : length documents = length metadata).
  { rewrite Hdocs, Hmeta. now rewrite !length_map. }
  eexists; exists documents, metadata. split; [reflexivity|].
  split; [exact Hlen|]. split; [exact Hcombine|]. split.
  - intros i doc Hdoc.
    destruct (nth_error metadata i) as [r|] eqn:Hr.
    + exists r. split; [reflexivity|].
      apply (@paired_nth _ i). rewrite <- Hcombine.
      now apply combine_nth.
    + apply nth_error_None in Hr.
      assert (i < length documents)%nat by (apply nth_error_Some; congruence).
      lia.
  - intro Hrows. unfold Faiss.ntotal, Faiss.add, Faiss.new. simpl.
    apply (Hrows encode); [reflexivity | exact EN].
Qed.

(** The build of the sample world succeeds and leaves seven documents, seven
    metadata entries and seven vectors. *)
Lemma C9_parallel_tables_witness :
  exists index documents metadata,
    snd (FAISSCreator.create_faiss_index Sample.world_ok Store.empty) =
      Store.mk true (Some index) (Some documents) (Some metadata) /\
    length documents = length metadata /\
    Faiss.ntotal index = length documents /\
    length documents = 7%nat.
Proof.
  destruct (@C9_parallel_tables Sample.world_ok Store.empty
              (snd (FAISSCreator.create_faiss_index Sample.world_ok Store.empty)))
    as [index [documents [metadata [Hf [Hl [_ [_ Hn]]]]]]].
  - vm_compute. reflexivity.
  - exists index, documents, metadata.
    split; [exact Hf|]. split; [exact Hl|]. split.
    + apply Hn. intros encode texts embeddings [= <-] [= <-]. apply length_map.
    + vm_compute in Hf. injection Hf as _ <- _. reflexivity.
Defined.

(** C8, as the code has it. When the health file is readable and yields no
    valid record, [create_knowledge_base] returns two empty tables and
    [create_faiss_index] returns [False], the value it returns for its other
    failures too, and leaves the folder as it was: no index is written and
    no exception is raised. *)
Theorem C8_no_records_returns_false :
  forall (w : FAISSCreator.world) (folder : Store.t),
    FAISSCreator.check_file w = true ->
    FAISSCreator.parse_health_file w = [] ->
    FAISSCreator.create_knowledge_base w = Py.Returned ([], []) /\
    FAISSCreator.create_faiss_index w folder = (Py.Returned false, folder).
Proof.
  intros w folder Hfile Hparse.
  assert (KB : FAISSCreator.create_knowledge_base w = Py.Returned ([], [])).
  { unfold FAISSCreator.create_knowledge_base. now rewrite Hfile, Hparse. }
  split; [exact KB|].
  unfold FAISSCreator.create_faiss_index. now rewrite KB.
Qed.

(** A health file whose only entry has a blank name. *)
Lemma C8_no_records_returns_false_witness :
  FAISSCreator.create_knowledge_base Sample.world_no_records = Py.Returned ([], []) /\
  FAISSCreator.create_faiss_index Sample.world_no_records Store.empty =
    (Py.Returned false, Store.empty).
Proof.
  apply (@C8_no_records_returns_false Sample.world_no_records Store.empty);
    reflexivity.
Defined.

(** C8, as stated, fails: a build whose health file holds only an entry
    with a blank name has no valid record, yet the call raises nothing; it
    returns [False], exactly as a build does whose encoder cannot be
    loaded. *)
Lemma C8_counterexample :
  FAISSCreator.parse_health_file Sample.world_no_records = [] /\
  (forall e : Py.exn,
     fst (FAISSCreator.create_faiss_index Sample.world_no_records Store.empty)
     <> Py.Raised e) /\
  FAISSCreator.parse_health_file Sample.world_no_model <> [] /\
  FAISSCreator.create_faiss_index Sample.world_no_model Store.empty =
  FAISSCreator.create_faiss_index Sample.world_no_records Store.empty.
Proof.
  split; [reflexivity|]. split; [intros e; discriminate|].
  split; [discriminate | reflexivity].
Qed.

(** C7, as the code has it. Loading raises when the folder or one of the
    three artifacts is missing; when the three artifacts are present it
    returns them as they are, whatever their sizes: no comparison of sizes
    takes place. *)
Theorem C7_load_checks_presence_only :
  forall (embed : string -> vec) (folder : Store.t),
    (Store.folder_exists folder = false \/
     Store.index_faiss folder = None \/
     Store.docs_pkl folder = None \/
     Store.metadata_pkl folder = None ->
     exists e, HealthcareDiagnoser.load_faiss_index embed folder = Py.Raised e) /\
    (forall index documents metadata,
       folder = Store.mk true (Some index) (Some documents) (Some metadata) ->
       HealthcareDiagnoser.load_faiss_index embed folder =
         Py.Returned (HealthcareDiagnoser.mk embed index documents metadata)).
Proof.
  intros embed [ex [index|] [docs|] [meta|]]; split;
    try (intros i ds ms [= -> -> -> ->]; reflexivity);
    try (intros i ds ms H; discriminate H);
    unfold HealthcareDiagnoser.load_faiss_index; simpl;
    destruct ex; simpl; intro H; eauto;
    destruct H as [H | [H | [H | H]]]; discriminate.
Qed.

(** C7, as stated, fails: a folder holding one vector, two documents and no
    metadata entry loads without an exception. *)
Lemma C7_counterexample :
  exists self,
    HealthcareDiagnoser.load_faiss_index Sample.embed Sample.folder_inconsistent
      = Py.Returned self /\
    Faiss.ntotal (HealthcareDiagnoser.index self) = 1%nat /\
    length (HealthcareDiagnoser.documents self) = 2%nat /\
    length (HealthcareDiagnoser.metadata self) = 0%nat.
Proof.
  eexists. split; [reflexivity|]. repeat split.
Qed.

(** When [k] exceeds the number of stored vectors of a non-empty index whose
    metadata table has the same size, the search returns [k] hits: one per
    vector found, in the order of the row, followed by one hit per padding
    slot, each built from the last metadata entry at distance [FLT_MAX];
    there are at least [k - ntotal] of the latter. *)
Lemma search_pads_to_k (self : HealthcareDiagnoser.t) (text : string) (k : nat) :
  length (HealthcareDiagnoser.embedder self text)
    = Faiss.d (HealthcareDiagnoser.index self) ->
  Faiss.ntotal (HealthcareDiagnoser.index self)
    = length (HealthcareDiagnoser.metadata self) ->
  (0 < Faiss.ntotal (HealthcareDiagnoser.index self) < k)%nat ->
  exists real last,
    nth_error (HealthcareDiagnoser.metadata self)
              (length (HealthcareDiagnoser.metadata self) - 1) = Some last /\
    HealthcareDiagnoser.search_similar_diseases self text k =
      Py.Returned
        (real ++ repeat (hit_of last Faiss.FLT_MAX) (k - length real)) /\
    Forall2 (fun slot h =>
               exists m,
                 nth_error (HealthcareDiagnoser.metadata self)
                           (Z.to_nat (snd slot)) = Some m /\
                 h = hit_of m (fst slot))
            (Faiss.ranked (HealthcareDiagnoser.index self)
                          (HealthcareDiagnoser.embedder self text))
            real /\
    (length real <= Faiss.ntotal (HealthcareDiagnoser.index self))%nat /\
    length (real ++ repeat (hit_of last Faiss.FLT_MAX) (k - length real)) = k.
Proof.
  intros Hdim Hsize [Hpos Hk].
  set (index := HealthcareDiagnoser.index self) in *.
  set (md := HealthcareDiagnoser.metadata self) in *.
  set (q := HealthcareDiagnoser.embedder self text) in *.
  destruct (nth_error md (length md - 1)) as [last|] eqn:Hlast.
  2:{ apply nth_error_None in Hlast. lia. }
  assert (Hvalid :
            Forall (fun slot => (0 <= snd slot < Z.of_nat (length md))%Z)
                   (Faiss.ranked index q)).
  { apply Forall_forall. intros [dist idx] Hin.
    apply ranked_slot in Hin. simpl. lia. }
  destruct (@collect_hits_valid md _ Hvalid []) as [real [Hreal Hshape]].
  pose proof (ranked_length index q) as Hfound.
  assert (Hlen : length real = length (Faiss.ranked index q)).
  { symmetry. apply (Forall2_length Hshape). }
  exists real, last. split; [reflexivity|].
  split; [|split; [exact Hshape | split;
                   [lia | rewrite length_app, repeat_length; lia]]].
  unfold HealthcareDiagnoser.search_similar_diseases.
  fold index. fold md. fold q.
  rewrite (search_returns index q Hdim) by lia. cbn [Py.bind].
  rewrite firstn_all2 by lia.
  rewrite <- Hlen, collect_hits_app, Hreal. cbn [Py.bind app].
  now apply collect_hits_padding.
Qed.

(** C2, on the code: two vectors are stored and three neighbours are asked
    for. The search returns three hits, not two: the third comes from the
    padding slot, whose label [-1] passes the test [idx < len(metadata)] and
    selects the last metadata entry, at distance [FLT_MAX] and confidence
    0. *)
Theorem C2_padding_slot_becomes_hit :
  Faiss.ntotal (HealthcareDiagnoser.index Sample.two_records) = 2%nat /\
  Faiss.search (HealthcareDiagnoser.index Sample.two_records) [0; 0] 3 =
    Py.Returned [(0, 0%Z); (1, 1%Z); (Faiss.FLT_MAX, (-1)%Z)] /\
  HealthcareDiagnoser.search_similar_diseases Sample.two_records "fever" 3 =
    Py.Returned
      [Hit.mk "Flu" ["fever"; "cough"]%string 100 0;
       Hit.mk "Migraine" ["headache"; "nausea"]%string 80 1;
       Hit.mk "Migraine" ["headache"; "nausea"]%string 0 Faiss.FLT_MAX].
Proof.
  split; [reflexivity|]. split; vm_compute; reflexivity.
Qed.

(* ================================================================= *)
(** ** Further properties: when the search fails *)

Lemma getitem_in_range (A : Type) (xs : list A) (i : Z) :
  (- Z.of_nat (length xs) <= i < Z.of_nat (length xs))%Z ->
  exists x, Py.getitem xs i = Py.Returned x.
Proof.
  intro Hi. unfold Py.getitem. cbv zeta.
  set (j := if (i <? 0)%Z then (i + Z.of_nat (length xs))%Z else i).
  assert (Hj : (0 <= j < Z.of_nat (length xs))%Z).
  { unfold j. destruct (i <? 0)%Z eqn:E;
      [apply Z.ltb_lt in E | apply Z.ltb_ge in E]; lia. }
  destruct (j <? 0)%Z eqn:E; [apply Z.ltb_lt in E; lia|].
  destruct (nth_error xs (Z.to_nat j)) as [x|] eqn:N.
  - now exists x.
  - apply nth_error_None in N. lia.
Qed.

Lemma collect_hits_returns (md : list Meta.t) (row : list (Q * Z)) :
  md <> [] ->
  Forall (fun slot => (-1 <= snd slot)%Z) row ->
  forall results,
  exists new,
    HealthcareDiagnoser.collect_hits md row results = Py.Returned (results ++ new) /\
    (length new <= length row)%nat.
Proof.
  intros Hmd Hrow. induction Hrow as [|[dist idx] row Hidx _ IH];
    intro results; simpl.
  - exists []. now rewrite app_nil_r.
  - simpl in Hidx. destruct (idx <? Z.of_nat (length md))%Z eqn:E.
    + apply Z.ltb_lt in E.
      destruct (@getitem_in_range _ md idx) as [m Hm].
      { destruct md; [contradiction | simpl length in *; lia]. }
      rewrite Hm. cbn [Py.bind].
      destruct (IH (results ++ [Hit.mk (Meta.disease m) (Meta.symptoms m)
                                       (HealthcareDiagnoser.hit_confidence dist) dist]))
        as [new [Hc Hlen]].
      eexists (_ :: new). rewrite Hc, <- app_assoc. split; [reflexivity|].
      simpl. lia.
    + destruct (IH results) as [new [Hc Hlen]]. exists new.
      split; [exact Hc | lia].
Qed.

Lemma collect_hits_without_metadata (row : list (Q * Z)) :
  Forall (fun slot => (0 <= snd slot)%Z) row ->
  forall results,
    HealthcareDiagnoser.collect_hits [] row results = Py.Returned results.
Proof.
  induction 1 as [|[dist idx] row Hidx _ IH]; intro results; simpl.
  - reflexivity.
  - simpl in Hidx. destruct (idx <? 0)%Z eqn:E; [apply Z.ltb_lt in E; lia|].
    apply IH.
Qed.

Lemma found_labels (index : Faiss.IndexFlatL2) (x : vec) (k : nat) :
  Forall (fun slot => (0 <= snd slot < Z.of_nat (Faiss.ntotal index))%Z)
         (firstn k (Faiss.ranked index x)).
Proof.
  apply Forall_forall. intros [dist idx] Hin. apply In_firstn in Hin.
  apply ranked_slot in Hin. simpl. tauto.
Qed.

Lemma row_labels (index : Faiss.IndexFlatL2) (x : vec) (k : nat)
  (row : list (Q * Z)) :
  Faiss.search index x k = Py.Returned row ->
  Forall (fun slot => (-1 <= snd slot)%Z) row.
Proof.
  intro H. apply search_row in H. destruct H as [_ ->].
  apply Forall_app. split.
  - eapply Forall_impl; [|apply found_labels]. simpl. intros slot Hs. lia.
  - apply Forall_forall. intros slot Hs. apply repeat_spec in Hs. subst. simpl. lia.
Qed.

(** X1. The search raises in two cases only. It raises [AssertionError],
    from the index, when the query has not the dimension of the index or no
    neighbour is asked for. Otherwise it raises [IndexError] exactly when
    the metadata table is empty and the row has a padding slot, that is,
    when more neighbours are asked for than vectors are found (at most
    as many as are stored); with an empty metadata table and no padding
    slot it returns no hit, and with a metadata table that is not empty it
    returns at most [top_k] hits. *)
Theorem search_failures :
  forall (self : HealthcareDiagnoser.t) (text : string) (k : nat),
    (length (HealthcareDiagnoser.embedder self text)
       <> Faiss.d (HealthcareDiagnoser.index self) \/ k = 0%nat ->
     HealthcareDiagnoser.search_similar_diseases self text k
       = Py.Raised Py.AssertionError) /\
    (length (Faiss.ranked (HealthcareDiagnoser.index self)
                          (HealthcareDiagnoser.embedder self text))
     <= Faiss.ntotal (HealthcareDiagnoser.index self))%nat /\
    (length (HealthcareDiagnoser.embedder self text)
       = Faiss.d (HealthcareDiagnoser.index self) ->
     (0 < k)%nat ->
     (HealthcareDiagnoser.metadata self <> [] ->
      exists hits,
        HealthcareDiagnoser.search_similar_diseases self text k = Py.Returned hits /\
        (length hits <= k)%nat) /\
     (HealthcareDiagnoser.metadata self = [] ->
      (k <= length (Faiss.ranked (HealthcareDiagnoser.index self)
                                 (HealthcareDiagnoser.embedder self text)))%nat ->
      HealthcareDiagnoser.search_similar_diseases self text k = Py.Returned []) /\
     (HealthcareDiagnoser.metadata self = [] ->
      (length (Faiss.ranked (HealthcareDiagnoser.index self)
                            (HealthcareDiagnoser.embedder self text)) < k)%nat ->
      HealthcareDiagnoser.search_similar_diseases self text k
        = Py.Raised Py.IndexError)).
Proof.
  intros self text k. unfold HealthcareDiagnoser.search_similar_diseases.
  set (index := HealthcareDiagnoser.index self).
  set (md := HealthcareDiagnoser.metadata self).
  set (q := HealthcareDiagnoser.embedder self text).
  split; [|split; [apply ranked_length|]].
  - intro H. unfold Faiss.search.
    destruct (Nat.eqb (length q) (Faiss.d index)) eqn:E; [|reflexivity].
    destruct (Nat.ltb 0 k) eqn:K; [|reflexivity].
    apply Nat.eqb_eq in E. apply Nat.ltb_lt in K. destruct H; [contradiction | lia].
  - intros Hdim Hk. pose proof (search_returns index q Hdim Hk) as S.
    rewrite S. cbn [Py.bind]. split; [|split].
    + intro Hmd.
      destruct (@collect_hits_returns md _ Hmd (row_labels _ _ _ S) [])
        as [new [Hc Hlen]].
      exists new. split; [exact Hc|].
      now rewrite (search_row_length _ _ _ S) in Hlen.
    + intros Hmd Hfound. rewrite Hmd.
      replace (k - length (firstn k (Faiss.ranked index q)))%nat with 0%nat
        by (rewrite length_firstn; lia).
      simpl repeat. rewrite app_nil_r.
      apply collect_hits_without_metadata.
      eapply Forall_impl; [|apply found_labels]. simpl. intros slot Hs. lia.
    + intros Hmd Hfound. rewrite Hmd.
      rewrite collect_hits_app, collect_hits_without_metadata.
      2:{ eapply Forall_impl; [|apply found_labels]. simpl. intros slot Hs. lia. }
      cbn [Py.bind].
      destruct (k - length (firstn k (Faiss.ranked index q)))%nat eqn:E.
      { rewrite length_firstn in E. lia. }
      reflexivity.
Qed.

(** Three cases on the sample data: no neighbour asked for, empty tables
    with a padding slot, and two records with two neighbours. *)
Example search_failures_on_samples :
  HealthcareDiagnoser.search_similar_diseases Sample.two_records "fever" 0
    = Py.Raised Py.AssertionError /\
  HealthcareDiagnoser.search_similar_diseases Sample.nothing "fever" 1
    = Py.Raised Py.IndexError /\
  exists hits,
    HealthcareDiagnoser.search_similar_diseases Sample.two_records "fever" 2
      = Py.Returned hits /\ length hits = 2%nat.
Proof.
  split; [reflexivity|]. split; [reflexivity|].
  eexists. split; [vm_compute; reflexivity | reflexivity].
Qed.

Lemma search_unfolded (self : HealthcareDiagnoser.t) (text : string) (k : nat) :
  length (HealthcareDiagnoser.embedder self text)
    = Faiss.d (HealthcareDiagnoser.index self) ->
  (0 < k)%nat ->
  HealthcareDiagnoser.search_similar_diseases self text k =
  HealthcareDiagnoser.collect_hits (HealthcareDiagnoser.metadata self)
    (firstn k (Faiss.ranked (HealthcareDiagnoser.index self)
                            (HealthcareDiagnoser.embedder self text))
     ++ repeat (Faiss.FLT_MAX, (-1)%Z)
          (k - length (firstn k (Faiss.ranked (HealthcareDiagnoser.index self)
                                   (HealthcareDiagnoser.embedder self text)))))
    [].
Proof.
  intros Hdim Hk. unfold HealthcareDiagnoser.search_similar_diseases.
  now rewrite (search_returns _ _ Hdim Hk).
Qed.

(** X2. When the query has the dimension of the index, the metadata table
    has as many entries as the index has vectors, and the number of
    neighbours asked for is positive and at most the number of vectors
    found (the stored vectors whose distance is below [FLT_MAX]), the
    search returns exactly [top_k] hits, the i-th built from the metadata
    entry that the i-th label of the row selects and from the i-th
    distance. *)
Theorem search_one_hit_per_slot :
  forall (self : HealthcareDiagnoser.t) (text : string) (k : nat),
    length (HealthcareDiagnoser.embedder self text)
      = Faiss.d (HealthcareDiagnoser.index self) ->
    Faiss.ntotal (HealthcareDiagnoser.index self)
      = length (HealthcareDiagnoser.metadata self) ->
    (0 < k <= length (Faiss.ranked (HealthcareDiagnoser.index self)
                                   (HealthcareDiagnoser.embedder self text)))%nat ->
    exists hits,
      HealthcareDiagnoser.search_similar_diseases self text k = Py.Returned hits /\
      length hits = k /\
      Forall2 (fun slot h =>
                 exists m,
                   nth_error (HealthcareDiagnoser.metadata self)
                             (Z.to_nat (snd slot)) = Some m /\
                   h = hit_of m (fst slot))
              (firstn k (Faiss.ranked (HealthcareDiagnoser.index self)
                                      (HealthcareDiagnoser.embedder self text)))
              hits.
Proof.
  intros self text k Hdim Hsize [Hpos Hk]. rewrite (search_unfolded _ _ Hdim Hpos).
  set (found := firstn k (Faiss.ranked (HealthcareDiagnoser.index self)
                            (HealthcareDiagnoser.embedder self text))).
  assert (Hlen : length found = k).
  { unfold found. rewrite length_firstn. lia. }
  rewrite Hlen, Nat.sub_diag. simpl repeat. rewrite app_nil_r.
  assert (Hvalid :
            Forall (fun slot => (0 <= snd slot
                                 < Z.of_nat (length (HealthcareDiagnoser.metadata self)))%Z)
                   found).
  { rewrite <- Hsize. apply found_labels. }
  destruct (@collect_hits_valid _ _ Hvalid []) as [hits [Hc Hshape]].
  exists hits. split; [exact Hc|]. split; [|exact Hshape].
  now rewrite <- (Forall2_length Hshape).
Qed.

(** The sample index with two vectors, asked for two neighbours. *)
Lemma search_one_hit_per_slot_witness :
  exists hits,
    HealthcareDiagnoser.search_similar_diseases Sample.two_records "fever" 2
      = Py.Returned hits /\
    length hits = 2%nat.
Proof.
  destruct (@search_one_hit_per_slot Sample.two_records "fever" 2)
    as [hits [Hs [Hl _]]]; [reflexivity | reflexivity | vm_compute; lia |].
  exists hits. split; [exact Hs | exact Hl].
Defined.

Lemma collect_hits_ordered (md : list Meta.t) (row : list (Q * Z)) :
  ascending row ->
  forall results hits,
    HealthcareDiagnoser.collect_hits md row results = Py.Returned hits ->
    exists new, hits = results ++ new /\ descending new.
Proof.
  induction 1 as [|[dist idx] row Hrow IH Hmin]; intros results hits H.
  - simpl in H. injection H as <-. exists []. split;
      [now rewrite app_nil_r | constructor].
  - simpl in H. destruct (idx <? Z.of_nat (length md))%Z.
    + destruct (Py.getitem md idx) as [m|e] eqn:G; simpl in H; [|discriminate].
      fold (hit_of m dist) in H.
      destruct (collect_hits_inv _ _ _ H) as [new [Hhits Hnew]].
      apply IH in H. destruct H as [new' [Hhits' Hdesc]].
      assert (new' = new) as ->.
      { apply (app_inv_head (results ++ [hit_of m dist])). congruence. }
      exists (hit_of m dist :: new). split.
      * rewrite Hhits, <- app_assoc. reflexivity.
      * constructor; [exact Hdesc|].
        rewrite Forall_forall in *. intros h Hh.
        destruct (Hnew h Hh) as [d' [i' [m' [Hin [_ ->]]]]]. simpl.
        apply hit_confidence_antitone. apply (Hmin (d', i') Hin).
    + apply IH, H.
Qed.

(** X3. The loop of the search keeps the order of the row: when the
    distances of the row never decrease, the confidences of the hits never
    increase. *)
Theorem hits_follow_the_row :
  forall (md : list Meta.t) (row : list (Q * Z)) (hits : list Hit.t),
    ascending row ->
    HealthcareDiagnoser.collect_hits md row [] = Py.Returned hits ->
    descending hits.
Proof.
  intros md row hits Hrow H.
  destruct (collect_hits_ordered md Hrow _ H) as [new [-> Hdesc]]. exact Hdesc.
Qed.

(** A row of three slots, the last a padding slot. *)
Lemma hits_follow_the_row_witness :
  exists hits,
    HealthcareDiagnoser.collect_hits [Sample.flu; Sample.migraine]
      [(0, 0%Z); (1, 1%Z); (Faiss.FLT_MAX, (-1)%Z)] [] = Py.Returned hits /\
    descending hits.
Proof.
  eexists. split; [vm_compute; reflexivity|].
  apply (@hits_follow_the_row [Sample.flu; Sample.migraine]
           [(0, 0%Z); (1, 1%Z); (Faiss.FLT_MAX, (-1)%Z)]).
  - repeat constructor; vm_compute; discriminate.
  - vm_compute. reflexivity.
Defined.

(* ================================================================= *)
(** ** Further properties: the diagnoses returned *)

Lemma assemble_fold (md : list Meta.t) (hs : list Hit.t) :
  forall acc,
    fold_left (HealthcareDiagnoser.assemble md) hs acc =
    acc ++ flat_map
             (fun h =>
                match HealthcareDiagnoser.get_complete_disease_info_from
                        md (Hit.disease h) with
                | Some m => [diagnosis_of m (Hit.confidence h)]
                | None => []
                end) hs.
Proof.
  induction hs as [|h hs IH]; intro acc; simpl.
  - now rewrite app_nil_r.
  - rewrite IH. unfold HealthcareDiagnoser.assemble at 1.
    destruct (HealthcareDiagnoser.get_complete_disease_info_from md (Hit.disease h));
      [now rewrite <- app_assoc | reflexivity].
Qed.

Lemma cap_monotone (c1 c2 : Q) : c1 <= c2 -> Py.min 95 c1 <= Py.min 95 c2.
Proof.
  intro H.
  destruct (cap_cases c1) as [[H1 ->] | [H1 ->]];
    destruct (cap_cases c2) as [[H2 ->] | [H2 ->]]; lra.
Qed.

Lemma descending_firstn (n : nat) (hs : list Hit.t) :
  descending hs -> descending (firstn n hs).
Proof.
  intro H. revert n. induction H as [|h hs Hhs IH Hh]; intros [|n]; simpl;
    try constructor.
  - apply IH.
  - rewrite Forall_forall in *. intros x Hx. apply Hh. eapply In_firstn, Hx.
Qed.

Lemma resolved_descending (md : list Meta.t) (hs : list Hit.t) :
  descending hs ->
  diagnoses_descending
    (flat_map
       (fun h =>
          match HealthcareDiagnoser.get_complete_disease_info_from
                  md (Hit.disease h) with
          | Some m => [diagnosis_of m (Hit.confidence h)]
          | None => []
          end) hs).
Proof.
  induction 1 as [|h hs Hhs IH Hh]; simpl.
  - constructor.
  - assert (Hall :
              Forall (fun dg => Diagnosis.confidence dg <= Py.min 95 (Hit.confidence h))
                (flat_map
                   (fun h =>
                      match HealthcareDiagnoser.get_complete_disease_info_from
                              md (Hit.disease h) with
                      | Some m => [diagnosis_of m (Hit.confidence h)]
                      | None => []
                      end) hs)).
    { apply Forall_forall. intros dg Hdg. apply in_flat_map in Hdg.
      destruct Hdg as [h' [Hh' Hdg]]. rewrite Forall_forall in Hh.
      destruct (HealthcareDiagnoser.get_complete_disease_info_from md (Hit.disease h'));
        [|destruct Hdg].
      destruct Hdg as [<- | []]. simpl. apply cap_monotone, Hh, Hh'. }
    destruct (HealthcareDiagnoser.get_complete_disease_info_from md (Hit.disease h));
      simpl; [constructor; assumption | exact IH].
Qed.

Lemma resolved_length (md : list Meta.t) (hs : list Hit.t) :
  (length
     (flat_map
        (fun h =>
           match HealthcareDiagnoser.get_complete_disease_info_from
                   md (Hit.disease h) with
           | Some m => [diagnosis_of m (Hit.confidence h)]
           | None => []
           end) hs) <= length hs)%nat.
Proof.
  induction hs as [|h hs IH]; simpl; [lia|].
  rewrite length_app.
  destruct (HealthcareDiagnoser.get_complete_disease_info_from md (Hit.disease h));
    simpl; lia.
Qed.

Lemma collect_hits_length (md : list Meta.t) (row : list (Q * Z)) :
  forall results hits,
    HealthcareDiagnoser.collect_hits md row results = Py.Returned hits ->
    (length hits <= length results + length row)%nat.
Proof.
  induction row as [|[dist idx] row IH]; intros results hits H; simpl in H.
  - injection H as <-. simpl. lia.
  - destruct (idx <? Z.of_nat (length md))%Z.
    + destruct (Py.getitem md idx); simpl in H; [|discriminate].
      apply IH in H. rewrite length_app in H. simpl in *. lia.
    + apply IH in H. simpl. lia.
Qed.

Lemma search_hits_length (self : HealthcareDiagnoser.t) (text : string) (k : nat)
  (hits : list Hit.t) :
  HealthcareDiagnoser.search_similar_diseases self text k = Py.Returned hits ->
  (length hits <= k)%nat.
Proof.
  unfold HealthcareDiagnoser.search_similar_diseases.
  destruct (Faiss.search _ _ k) as [row|e] eqn:S; simpl; [|discriminate].
  intro H. apply collect_hits_length in H.
  rewrite (search_row_length _ _ _ S) in H. simpl in H. exact H.
Qed.

Lemma deduplicate_length (hits : list Hit.t) :
  (length (HealthcareDiagnoser.deduplicate hits) <= length hits)%nat.
Proof.
  pose proof (deduplicate_inv hits) as [Hnd Hentry _].
  rewrite <- (length_map fst), <- (length_map Hit.disease hits).
  apply NoDup_incl_length; [exact Hnd|].
  intros name Hname. apply in_map_iff in Hname.
  destruct Hname as [[k h] [<- Hin]]. destruct (Hentry _ _ Hin) as [<- [Hh _]].
  simpl. now apply in_map.
Qed.

Lemma rank_and_assemble_short (md : list Meta.t) (hits : list Hit.t) :
  (length (HealthcareDiagnoser.rank_and_assemble md hits) <= 3)%nat.
Proof.
  unfold HealthcareDiagnoser.rank_and_assemble, Py.slice_to.
  rewrite assemble_fold, app_nil_l.
  etransitivity; [apply resolved_length|].
  rewrite length_firstn. lia.
Qed.

(** X4. The diagnoses come back best first: their confidences never
    increase along the list; and there are never more than three of them,
    nor more than the number of neighbours asked for. *)
Theorem diagnoses_best_first :
  forall (self : HealthcareDiagnoser.t) (text : string) (k : nat)
         (diags : list Diagnosis.t),
    HealthcareDiagnoser.diagnose self text k = Py.Returned diags ->
    diagnoses_descending diags /\
    (length diags <= 3)%nat /\
    (length diags <= k)%nat.
Proof.
  intros self text k diags H. apply diagnose_inv in H.
  destruct H as [hits [Hs ->]]. unfold HealthcareDiagnoser.rank_and_assemble.
  rewrite assemble_fold, app_nil_l.
  set (ranked := HealthcareDiagnoser.sorted_by_confidence_desc
                   (HealthcareDiagnoser.dict_values
                      (HealthcareDiagnoser.deduplicate hits))).
  pose proof (resolved_length (HealthcareDiagnoser.metadata self)
                (Py.slice_to 3 ranked)) as Hlen.
  unfold Py.slice_to in *. rewrite length_firstn in Hlen.
  assert (Hranked : (length ranked <= k)%nat).
  { unfold ranked. rewrite <- (Permutation_length (sorted_perm _)).
    unfold HealthcareDiagnoser.dict_values. rewrite length_map.
    pose proof (deduplicate_length hits). pose proof (search_hits_length _ _ _ Hs).
    lia. }
  split; [|lia].
  apply resolved_descending, descending_firstn, sorted_descending.
Qed.

(** The sample index with two records. *)
Lemma diagnoses_best_first_witness :
  exists diags,
    HealthcareDiagnoser.diagnose Sample.two_records "fever" 15 = Py.Returned diags /\
    diagnoses_descending diags /\ (length diags <= 3)%nat.
Proof.
  eexists. split; [vm_compute; reflexivity|].
  destruct (@diagnoses_best_first Sample.two_records "fever" 15 _ eq_refl)
    as [Hd [Hl _]].
  split; [exact Hd | exact Hl].
Defined.

Lemma lookup_finds (md : list Meta.t) (m : Meta.t) :
  In m md ->
  exists m',
    HealthcareDiagnoser.get_complete_disease_info_from md (Meta.disease m) = Some m'.
Proof.
  induction md as [|m0 md IH]; simpl; [tauto|].
  intros [-> | Hin].
  - rewrite String.eqb_refl. eauto.
  - destruct (String.eqb (Py.lower (Meta.disease m0)) (Py.lower (Meta.disease m)));
      [eauto | apply IH, Hin].
Qed.

Lemma resolved_all (md : list Meta.t) (hs : list Hit.t) :
  (forall h, In h hs ->
     exists m,
       HealthcareDiagnoser.get_complete_disease_info_from md (Hit.disease h) = Some m) ->
  Forall2 (resolves md) hs
    (flat_map
       (fun h =>
          match HealthcareDiagnoser.get_complete_disease_info_from
                  md (Hit.disease h) with
          | Some m => [diagnosis_of m (Hit.confidence h)]
          | None => []
          end) hs).
Proof.
  induction hs as [|h hs IH]; intro Hall; simpl.
  - constructor.
  - destruct (Hall h (or_introl eq_refl)) as [m Hm]. rewrite Hm. simpl.
    constructor.
    + exists m. split; [apply lookup_earliest, Hm | reflexivity].
    + apply IH. intros h' Hh'. apply Hall. now right.
Qed.

Lemma descending_app (l1 l2 : list Hit.t) :
  descending (l1 ++ l2) ->
  forall h h', In h l1 -> In h' l2 -> Hit.confidence h' <= Hit.confidence h.
Proof.
  induction l1 as [|x l1 IH]; simpl; intros H h h' Hh Hh'; [destruct Hh|].
  inversion H as [|? ? Hrest Hx]; subst.
  destruct Hh as [<- | Hh].
  - rewrite Forall_forall in Hx. apply Hx. apply in_or_app. now right.
  - now apply (IH Hrest h h').
Qed.

(** X5. Every hit of a search has a name taken from the metadata table, so
    the lookup of a ranked hit never misses. The diagnoses returned are
    therefore, one for one and in order, the first three entries of the
    ranking (all of them when there are fewer), each resolved against the
    metadata table; and no entry of the ranking that is left out has a
    higher confidence than one that is returned. *)
Theorem diagnoses_are_the_best_three :
  forall (self : HealthcareDiagnoser.t) (text : string) (k : nat)
         (hits : list Hit.t),
    HealthcareDiagnoser.search_similar_diseases self text k = Py.Returned hits ->
    exists top rest diags,
      HealthcareDiagnoser.sorted_by_confidence_desc
        (HealthcareDiagnoser.dict_values (HealthcareDiagnoser.deduplicate hits))
        = top ++ rest /\
      length top = Nat.min 3 (length (HealthcareDiagnoser.deduplicate hits)) /\
      HealthcareDiagnoser.diagnose self text k = Py.Returned diags /\
      Forall2 (resolves (HealthcareDiagnoser.metadata self)) top diags /\
      (forall h h', In h top -> In h' rest ->
                    Hit.confidence h' <= Hit.confidence h).
Proof.
  intros self text k hits Hs.
  set (ranked := HealthcareDiagnoser.sorted_by_confidence_desc
                   (HealthcareDiagnoser.dict_values
                      (HealthcareDiagnoser.deduplicate hits))).
  exists (firstn 3 ranked), (skipn 3 ranked). eexists.
  split; [symmetry; apply firstn_skipn|]. split.
  { rewrite length_firstn. unfold ranked.
    rewrite <- (Permutation_length (sorted_perm _)).
    unfold HealthcareDiagnoser.dict_values. now rewrite length_map. }
  split.
  { unfold HealthcareDiagnoser.diagnose. rewrite Hs. cbn [Py.bind].
    unfold HealthcareDiagnoser.rank_and_assemble, Py.slice_to.
    rewrite assemble_fold, app_nil_l. fold ranked. reflexivity. }
  split.
  - apply resolved_all. intros h Hh. apply In_firstn in Hh.
    apply (Permutation_in _ (Permutation_sym (sorted_perm _))) in Hh.
    unfold HealthcareDiagnoser.dict_values in Hh. apply in_map_iff in Hh.
    destruct Hh as [[name h'] [Heq Hin]]. simpl in Heq. subst h'.
    destruct (inv_entry (deduplicate_inv hits) _ _ Hin) as [_ [Hh _]].
    pose proof (search_hits_inv _ _ _ Hs) as Hall. rewrite Forall_forall in Hall.
    destruct (Hall h Hh) as [dist [m [_ [Hm ->]]]]. simpl.
    apply lookup_finds, Hm.
  - apply descending_app. rewrite firstn_skipn. apply sorted_descending.
Qed.

(** The sample index with two records: two diagnoses for two names. *)
Lemma diagnoses_are_the_best_three_witness :
  exists top diags,
    length top = 2%nat /\
    HealthcareDiagnoser.diagnose Sample.two_records "fever" 15 = Py.Returned diags /\
    Forall2 (resolves (HealthcareDiagnoser.metadata Sample.two_records)) top diags.
Proof.
  destruct (@diagnoses_are_the_best_three Sample.two_records "fever" 15 _ eq_refl)
    as [top [rest [diags [_ [Hl [Hd [Hr _]]]]]]].
  exists top, diags. split; [exact Hl|]. split; [exact Hd | exact Hr].
Defined.

(* ================================================================= *)
(** ** Further properties: the padding slots and the diagnoses *)

Lemma dedup_ignores_weaker (dt : HealthcareDiagnoser.dict) (h kept : Hit.t)
  (n : nat) :
  HealthcareDiagnoser.dict_get dt (Hit.disease h) = Some kept ->
  Hit.confidence h <= Hit.confidence kept ->
  fold_left HealthcareDiagnoser.dedup_step (repeat h n) dt = dt.
Proof.
  intros Hget Hle. induction n as [|n IH]; simpl; [reflexivity|].
  unfold HealthcareDiagnoser.dedup_step at 2. rewrite Hget.
  apply ltb_ge in Hle. rewrite Hle. exact IH.
Qed.

Lemma Forall2_pick (A B : Type) (R : A -> B -> Prop) (xs : list A) (ys : list B)
  (x : A) :
  Forall2 R xs ys -> In x xs -> exists y, In y ys /\ R x y.
Proof.
  induction 1 as [|a b xs ys Hab _ IH]; simpl; [tauto|].
  intros [<- | Hin].
  - exists b. auto.
  - destruct (IH Hin) as [y [Hy Hr]]. exists y. auto.
Qed.

Lemma Forall2_range (A B : Type) (R : A -> B -> Prop) (xs : list A) (ys : list B)
  (y : B) :
  Forall2 R xs ys -> In y ys -> exists x, In x xs /\ R x y.
Proof.
  induction 1 as [|a b xs ys Hab _ IH]; simpl; [tauto|].
  intros [<- | Hin].
  - exists a. auto.
  - destruct (IH Hin) as [x [Hx Hr]]. exists x. auto.
Qed.

(** With tables of one size, the hits of the padding slots change nothing
    in the dictionary of unique diseases: the last metadata entry already
    has a hit, of a confidence that is not below theirs. *)
Lemma padding_hits_are_dropped (md : list Meta.t) (row : list (Q * Z))
  (real : list Hit.t) (last : Meta.t) (n : nat) :
  nth_error md (length md - 1) = Some last ->
  In (Z.of_nat (length md - 1)) (map snd row) ->
  Forall2 (fun slot h =>
             exists m, nth_error md (Z.to_nat (snd slot)) = Some m /\
                       h = hit_of m (fst slot)) row real ->
  HealthcareDiagnoser.deduplicate (real ++ repeat (hit_of last Faiss.FLT_MAX) n)
  = HealthcareDiagnoser.deduplicate real.
Proof.
  intros Hlast Hlabel Hshape. unfold HealthcareDiagnoser.deduplicate.
  rewrite fold_left_app. fold (HealthcareDiagnoser.deduplicate real).
  apply in_map_iff in Hlabel. destruct Hlabel as [slot [Hsnd Hslot]].
  destruct (Forall2_pick _ Hshape Hslot) as [h [Hh [m [Hm ->]]]].
  rewrite Hsnd, Nat2Z.id, Hlast in Hm. injection Hm as <-.
  pose proof (deduplicate_inv real) as [Hnd Hentry Hseen].
  specialize (Hseen _ Hh). simpl in Hseen.
  destruct (HealthcareDiagnoser.dict_get (HealthcareDiagnoser.deduplicate real)
              (Meta.disease last)) as [kept|] eqn:G.
  2:{ apply dict_get_None in G. contradiction. }
  apply (@dedup_ignores_weaker _ _ kept); [exact G|].
  apply dict_get_Some in G. destruct (Hentry _ _ G) as [_ [Hkept _]].
  destruct (Forall2_range _ Hshape Hkept) as [slot' [_ [m' [_ ->]]]].
  simpl. pose proof (hit_confidence_nonneg (fst slot')).
  assert (Hfar : HealthcareDiagnoser.hit_confidence Faiss.FLT_MAX == 0).
  { apply hit_confidence_far. unfold Faiss.FLT_MAX, Qle. simpl. lia. }
  lra.
Qed.

Lemma dict_get_set_same (dt : HealthcareDiagnoser.dict) (key : string)
  (v : Hit.t) :
  HealthcareDiagnoser.dict_get (HealthcareDiagnoser.dict_set dt key v) key = Some v.
Proof.
  induction dt as [|[k w] dt IH]; simpl.
  - now rewrite String.eqb_refl.
  - destruct (String.eqb k key) eqn:E; simpl; rewrite E; [reflexivity | exact IH].
Qed.

Lemma dedup_step_get (dt : HealthcareDiagnoser.dict) (h : Hit.t) :
  exists kept,
    HealthcareDiagnoser.dict_get (HealthcareDiagnoser.dedup_step dt h) (Hit.disease h)
      = Some kept /\
    Hit.confidence h <= Hit.confidence kept.
Proof.
  unfold HealthcareDiagnoser.dedup_step.
  destruct (HealthcareDiagnoser.dict_get dt (Hit.disease h)) as [kept|] eqn:G.
  - destruct (Py.ltb (Hit.confidence kept) (Hit.confidence h)) eqn:L.
    + exists h. split; [apply dict_get_set_same | lra].
    + exists kept. split; [exact G | now apply ltb_ge].
  - exists h. split; [apply dict_get_set_same | lra].
Qed.

(** A hit that comes several times in a row counts once. *)
Lemma dedup_repeat_once (dt : HealthcareDiagnoser.dict) (h : Hit.t) (n : nat) :
  fold_left HealthcareDiagnoser.dedup_step (repeat h (S n)) dt
  = HealthcareDiagnoser.dedup_step dt h.
Proof.
  simpl. destruct (dedup_step_get dt h) as [kept [G Hle]].
  now apply (@dedup_ignores_weaker _ _ kept).
Qed.

(** X6. With a query of the dimension of the index and a metadata table of
    the size of a non-empty index, asking for more neighbours than vectors
    are stored changes nothing in the diagnoses: the call returns what it
    returns when exactly as many neighbours are asked for as vectors are
    stored. *)
Theorem padding_does_not_reach_the_diagnoses :
  forall (self : HealthcareDiagnoser.t) (text : string) (k : nat),
    length (HealthcareDiagnoser.embedder self text)
      = Faiss.d (HealthcareDiagnoser.index self) ->
    Faiss.ntotal (HealthcareDiagnoser.index self)
      = length (HealthcareDiagnoser.metadata self) ->
    (0 < Faiss.ntotal (HealthcareDiagnoser.index self) <= k)%nat ->
    HealthcareDiagnoser.diagnose self text k =
    HealthcareDiagnoser.diagnose self text
      (Faiss.ntotal (HealthcareDiagnoser.index self)).
Proof.
  intros self text k Hdim Hsize [Hpos Hk].
  unfold HealthcareDiagnoser.diagnose.
  rewrite !(search_unfolded _ _ Hdim) by lia.
  set (index := HealthcareDiagnoser.index self) in *.
  set (md := HealthcareDiagnoser.metadata self) in *.
  set (q := HealthcareDiagnoser.embedder self text) in *.
  pose proof (ranked_length index q) as Hfound.
  rewrite !firstn_all2 by lia.
  destruct (nth_error md (length md - 1)) as [last|] eqn:Hlast.
  2:{ apply nth_error_None in Hlast. lia. }
  assert (Hvalid :
            Forall (fun slot => (0 <= snd slot < Z.of_nat (length md))%Z)
                   (Faiss.ranked index q)).
  { apply Forall_forall. intros [dist idx] Hin.
    apply ranked_slot in Hin. simpl. lia. }
  destruct (@collect_hits_valid md _ Hvalid []) as [real [Hreal Hshape]].
  rewrite !collect_hits_app, Hreal. cbn [Py.bind app].
  rewrite !(collect_hits_padding _ _ Hlast). cbn [Py.bind].
  unfold HealthcareDiagnoser.rank_and_assemble.
  assert (Hsame :
            HealthcareDiagnoser.deduplicate
              (real ++ repeat (hit_of last Faiss.FLT_MAX)
                              (k - length (Faiss.ranked index q)))
            = HealthcareDiagnoser.deduplicate
                (real ++ repeat (hit_of last Faiss.FLT_MAX)
                                (Faiss.ntotal index - length (Faiss.ranked index q)))).
  { destruct (Nat.eq_dec (length (Faiss.ranked index q)) (Faiss.ntotal index))
      as [Hfull | Hpart].
    - assert (Hin : In (Z.of_nat (length md - 1))
                       (map snd (Faiss.ranked index q))).
      { apply (Permutation_in _ (ranked_labels index q Hfull)).
        unfold Faiss.labels. apply in_map. apply in_seq. lia. }
      rewrite !(@padding_hits_are_dropped md (Faiss.ranked index q) real last)
        by assumption.
      reflexivity.
    - unfold HealthcareDiagnoser.deduplicate. rewrite !fold_left_app.
      destruct (k - length (Faiss.ranked index q))%nat as [|a] eqn:Ea; [lia|].
      destruct (Faiss.ntotal index - length (Faiss.ranked index q))%nat
        as [|b] eqn:Eb; [lia|].
      now rewrite !dedup_repeat_once. }
  now rewrite Hsame.
Qed.

(** Two vectors are stored and fifteen neighbours are asked for. *)
Lemma padding_does_not_reach_the_diagnoses_witness :
  HealthcareDiagnoser.diagnose Sample.two_records "fever" 15 =
  HealthcareDiagnoser.diagnose Sample.two_records "fever" 2.
Proof.
  apply (@padding_does_not_reach_the_diagnoses Sample.two_records "fever" 15).
  - reflexivity.
  - reflexivity.
  - vm_compute. lia.
Defined.

(* ================================================================= *)
(** ** Further properties: the lookup by name and the response *)

Lemma lookup_own_name (md : list Meta.t) (m : Meta.t) :
  unique_up_to_case md -> In m md ->
  HealthcareDiagnoser.get_complete_disease_info_from md (Meta.disease m) = Some m.
Proof.
  unfold unique_up_to_case. induction md as [|m0 md IH]; simpl; [tauto|].
  intros Hnd Hm. inversion Hnd as [|? ? Hfresh Hnd']; subst.
  destruct Hm as [-> | Hm].
  - now rewrite String.eqb_refl.
  - destruct (String.eqb (Py.lower (Meta.disease m0)) (Py.lower (Meta.disease m)))
      eqn:E; [|now apply IH].
    apply String.eqb_eq in E. exfalso. apply Hfresh. rewrite E.
    apply (in_map (fun m => Py.lower (Meta.disease m))), Hm.
Qed.

(** X7. The lookup of a record by name sees the name up to letter case
    only; it misses exactly when no entry of the table has that name up to
    letter case; and in a table whose names are distinct up to letter case
    the lookup of the name of an entry returns that entry. *)
Theorem lookup_by_name :
  forall self : HealthcareDiagnoser.t,
    (forall a b,
       Py.lower a = Py.lower b ->
       HealthcareDiagnoser.get_complete_disease_info self a =
       HealthcareDiagnoser.get_complete_disease_info self b) /\
    (forall name,
       HealthcareDiagnoser.get_complete_disease_info self name = None <->
       forall m, In m (HealthcareDiagnoser.metadata self) ->
                 Py.lower (Meta.disease m) <> Py.lower name) /\
    (unique_up_to_case (HealthcareDiagnoser.metadata self) ->
     forall m, In m (HealthcareDiagnoser.metadata self) ->
       HealthcareDiagnoser.get_complete_disease_info self (Meta.disease m) = Some m).
Proof.
  intro self. unfold HealthcareDiagnoser.get_complete_disease_info.
  generalize (HealthcareDiagnoser.metadata self) as md. intro md.
  split; [|split].
  - intros a b Hab. induction md as [|m0 md IH]; simpl; [reflexivity|].
    now rewrite Hab, IH.
  - intro name. induction md as [|m0 md IH]; simpl.
    + split; [intros _ m [] | reflexivity].
    + destruct (String.eqb (Py.lower (Meta.disease m0)) (Py.lower name)) eqn:E.
      * apply String.eqb_eq in E. split; [discriminate|].
        intro H. exfalso. apply (H m0); [now left | exact E].
      * apply String.eqb_neq in E. rewrite IH. split.
        -- intros H m [<- | Hm]; [exact E | now apply H].
        -- intros H m Hm. apply H. now right.
  - intros Hunique m Hm. now apply lookup_own_name.
Qed.

(** X8. [generate_response] raises exactly what [diagnose] raises with
    fifteen neighbours. When it returns, it hands on the diagnoses of that
    call; the message is the no-match text exactly when there is none, and
    otherwise names their number, which is 1, 2 or 3. *)
Theorem response_reports_the_count :
  forall (self : HealthcareDiagnoser.t) (text : string),
    (forall e,
       HealthcareDiagnoser.generate_response self text = Py.Raised e <->
       HealthcareDiagnoser.diagnose self text 15 = Py.Raised e) /\
    (forall resp,
       HealthcareDiagnoser.generate_response self text = Py.Returned resp ->
       HealthcareDiagnoser.diagnose self text 15
         = Py.Returned (HealthcareDiagnoser.diagnoses resp) /\
       ((HealthcareDiagnoser.diagnoses resp = [] /\
         HealthcareDiagnoser.message resp = HealthcareDiagnoser.no_match_message) \/
        (exists digit,
           In (length (HealthcareDiagnoser.diagnoses resp), digit)
              [(1%nat, "1"%string); (2%nat, "2"%string); (3%nat, "3"%string)] /\
           HealthcareDiagnoser.message resp =
             ("Found " ++ digit
              ++ " possible conditions matching your symptoms.")%string))).
Proof.
  intros self text. unfold HealthcareDiagnoser.generate_response.
  destruct (HealthcareDiagnoser.diagnose self text 15) as [diags|e0] eqn:D;
    cbn [Py.bind].
  - split.
    + intro e. destruct diags; simpl; split; discriminate.
    + intros resp H. apply diagnose_inv in D. destruct D as [hits [Hs Hd]].
      pose proof (rank_and_assemble_short (HealthcareDiagnoser.metadata self) hits)
        as Hlen.
      rewrite <- Hd in Hlen. clear Hd Hs.
      destruct diags as [|d1 [|d2 [|d3 [|d4 rest]]]]; simpl in H, Hlen;
        injection H as <-; simpl; try lia; (split; [reflexivity|]).
      * left. split; reflexivity.
      * right. exists "1"%string. split; [now left | reflexivity].
      * right. exists "2"%string. split; [right; now left | reflexivity].
      * right. exists "3"%string. split; [right; right; now left | reflexivity].
  - split.
    + intro e. split; intros [= ->]; reflexivity.
    + intros resp H. discriminate.
Qed.

(* ================================================================= *)
(** ** Further properties: parsing and the knowledge base *)

Lemma lstrip_head (s : string) :
  match Py.lstrip s with
  | EmptyString => True
  | String c _ => Py.isspace c = false
  end.
Proof.
  induction s as [|c s IH]; simpl; [exact I|].
  destruct (Py.isspace c) eqn:E; [exact IH | exact E].
Qed.

Lemma rstrip_head (c : ascii) (s : string) :
  Py.isspace c = false ->
  exists r, Py.rstrip (String c s) = String c r.
Proof.
  intro E. simpl. destruct (Py.rstrip s); [rewrite E|]; eauto.
Qed.

Lemma rstrip_idempotent (s : string) : Py.rstrip (Py.rstrip s) = Py.rstrip s.
Proof.
  induction s as [|c s IH]; simpl; [reflexivity|].
  destruct (Py.rstrip s) as [|c2 r2] eqn:R.
  - destruct (Py.isspace c) eqn:E; simpl; [reflexivity | now rewrite E].
  - simpl. simpl in IH. now rewrite IH.
Qed.

Lemma strip_idempotent (s : string) : Py.strip (Py.strip s) = Py.strip s.
Proof.
  unfold Py.strip. pose proof (lstrip_head s) as H.
  destruct (Py.lstrip s) as [|c t] eqn:L; [reflexivity|].
  destruct (@rstrip_head c t H) as [r Hr]. rewrite Hr.
  assert (Hl : Py.lstrip (String c r) = String c r) by (simpl; now rewrite H).
  rewrite Hl, <- Hr. apply rstrip_idempotent.
Qed.

Lemma parse_fold (data : list FAISSCreator.entry) :
  forall diseases,
    FAISSCreator.parse_entries data diseases =
    diseases ++ map parsed (filter named (readable_prefix data)).
Proof.
  induction data as [|[info| |] data IH]; intro diseases; simpl;
    try (now rewrite app_nil_r).
  rewrite IH. unfold FAISSCreator.parse_entry, named at 2.
  destruct (Py.nonempty (Py.strip (Raw.name info)));
    [simpl; now rewrite <- app_assoc | reflexivity].
Qed.

Lemma readable_prefix_length (data : list FAISSCreator.entry) :
  (length (readable_prefix data) <= length data)%nat.
Proof.
  induction data as [|[info| |] data IH]; simpl; lia.
Qed.

Lemma readable_prefix_stops (before : list Raw.t) (after : list FAISSCreator.entry) :
  readable_prefix (map FAISSCreator.Disease before ++ FAISSCreator.NameNotAString :: after)
    = before /\
  readable_prefix (map FAISSCreator.Disease before ++ FAISSCreator.NotAnObject :: after)
    = before /\
  readable_prefix (map FAISSCreator.Disease before) = before.
Proof.
  induction before as [|info before [IH1 [IH2 IH3]]]; simpl; [auto|].
  now rewrite IH1, IH2, IH3.
Qed.

(** X9. Parsing stops at the first item that is not an object or whose name
    is not a string, and what comes after it is lost. Of the items before
    it, it keeps, in their order, exactly those whose name is not blank,
    with the name stripped and the three lists untouched; so every parsed
    name is non-empty and free of surrounding white space, and there are
    never more records than items. Without a readable file there is no
    record. *)
Theorem parse_keeps_the_named_entries :
  forall (data : list FAISSCreator.entry)
         (encoder : option (list string -> option (list vec))),
    FAISSCreator.parse_health_file (FAISSCreator.mk (Some data) encoder)
      = map parsed (filter named (readable_prefix data)) /\
    (forall before after,
       (data = map FAISSCreator.Disease before
               ++ FAISSCreator.NameNotAString :: after \/
        data = map FAISSCreator.Disease before
               ++ FAISSCreator.NotAnObject :: after \/
        data = map FAISSCreator.Disease before) ->
       FAISSCreator.parse_health_file (FAISSCreator.mk (Some data) encoder)
         = map parsed (filter named before)) /\
    Forall (fun m => Meta.disease m <> EmptyString /\
                     Py.strip (Meta.disease m) = Meta.disease m)
           (FAISSCreator.parse_health_file (FAISSCreator.mk (Some data) encoder)) /\
    (length (FAISSCreator.parse_health_file (FAISSCreator.mk (Some data) encoder))
     <= length data)%nat /\
    FAISSCreator.parse_health_file (FAISSCreator.mk None encoder) = [].
Proof.
  intros data encoder.
  assert (H : FAISSCreator.parse_health_file (FAISSCreator.mk (Some data) encoder)
              = map parsed (filter named (readable_prefix data))).
  { unfold FAISSCreator.parse_health_file. simpl. now rewrite parse_fold. }
  rewrite H. split; [reflexivity|]. split; [|split; [|split; [|reflexivity]]].
  - intros before after Hdata.
    destruct (readable_prefix_stops before after) as [H1 [H2 H3]].
    destruct Hdata as [-> | [-> | ->]]; congruence.
  - apply Forall_forall. intros m Hm. apply in_map_iff in Hm.
    destruct Hm as [entry [<- Hentry]]. apply filter_In in Hentry.
    destruct Hentry as [_ Hnamed]. unfold named in Hnamed. simpl. split.
    + intro E. rewrite E in Hnamed. discriminate.
    + apply strip_idempotent.
  - rewrite length_map.
    etransitivity; [apply filter_length_le | apply readable_prefix_length].
Qed.

(** A valid item after an item whose name is not a string is lost. *)
Example parse_stops_at_a_bad_name :
  FAISSCreator.parse_health_file
    (FAISSCreator.mk
       (Some [FAISSCreator.Disease Sample.raw_flu; FAISSCreator.NameNotAString;
              FAISSCreator.Disease Sample.raw_migraine])
       None)
  = [Sample.flu].
Proof. reflexivity. Qed.

Lemma doc_variations_length (r : Meta.t) :
  (1 <= length (FAISSCreator.doc_variations r) <= 4)%nat.
Proof.
  destruct r as [name [|s ss] [|m ms] [|p ps]]; cbn; lia.
Qed.

Lemma paired_length (data : list Meta.t) :
  (length data <= length (paired data) <= 4 * length data)%nat.
Proof.
  induction data as [|r data IH]; simpl; [lia|].
  unfold paired in *. simpl. rewrite length_app, length_map.
  pose proof (doc_variations_length r). lia.
Qed.

(** X10. The knowledge base holds between one and four documents per parsed
    record, and as many metadata entries as documents; it is empty exactly
    when there is no parsed record. *)
Theorem knowledge_base_size :
  forall (w : FAISSCreator.world) (documents : list string)
         (metadata : list Meta.t),
    FAISSCreator.create_knowledge_base w = Py.Returned (documents, metadata) ->
    (length (FAISSCreator.parse_health_file w) <= length documents
     <= 4 * length (FAISSCreator.parse_health_file w))%nat /\
    length metadata = length documents /\
    (documents = [] <-> FAISSCreator.parse_health_file w = []).
Proof.
  intros w documents metadata H. apply knowledge_base_tables in H.
  destruct H as [-> ->]. rewrite !length_map.
  pose proof (paired_length (FAISSCreator.parse_health_file w)) as Hlen.
  split; [exact Hlen|]. split; [reflexivity|].
  split; intro E.
  - apply (f_equal (@length _)) in E. rewrite length_map in E. simpl in E.
    apply length_zero_iff_nil. lia.
  - now rewrite E.
Qed.

(** The sample world: two records, seven documents. *)
Lemma knowledge_base_size_witness :
  exists documents metadata,
    FAISSCreator.create_knowledge_base Sample.world_ok
      = Py.Returned (documents, metadata) /\
    (2 <= length documents <= 8)%nat /\
    length metadata = length documents.
Proof.
  eexists; eexists. split; [vm_compute; reflexivity|].
  destruct (@knowledge_base_size Sample.world_ok _ _ eq_refl) as [Hl [Hm _]].
  split; [exact Hl | exact Hm].
Defined.

(* ================================================================= *)
(** ** Further properties: the outcome of a build *)

Lemma knowledge_base_of_readable (w : FAISSCreator.world) :
  FAISSCreator.check_file w = true ->
  FAISSCreator.create_knowledge_base w =
    Py.Returned (map fst (paired (FAISSCreator.parse_health_file w)),
                 map snd (paired (FAISSCreator.parse_health_file w))).
Proof.
  intro Hfile.
  destruct (FAISSCreator.create_knowledge_base w) as [[documents metadata]|e] eqn:KB.
  - apply knowledge_base_tables in KB. destruct KB as [-> ->]. reflexivity.
  - unfold FAISSCreator.create_knowledge_base in KB. rewrite Hfile in KB.
    simpl in KB. destruct (negb _) in KB; discriminate.
Qed.

Lemma paired_nil (data : list Meta.t) : paired data = [] <-> data = [].
Proof.
  split; intro H; [|now rewrite H].
  pose proof (paired_length data) as Hlen. rewrite H in Hlen. simpl in Hlen.
  apply length_zero_iff_nil. lia.
Qed.

Lemma check_file_fails (w : FAISSCreator.world) :
  FAISSCreator.check_file w = false <->
  FAISSCreator.health_file w = None \/
  exists data,
    FAISSCreator.health_file w = Some data /\
    In FAISSCreator.NotAnObject (Py.slice_to 3 data).
Proof.
  unfold FAISSCreator.check_file.
  destruct (FAISSCreator.health_file w) as [data|].
  - split.
    + intro H. right. exists data. split; [reflexivity|].
      induction (Py.slice_to 3 data) as [|e l IH]; simpl in *; [discriminate|].
      destruct e; simpl in H; auto.
    + intros [H | [data' [[= <-] Hin]]]; [discriminate|].
      induction (Py.slice_to 3 data) as [|e l IH]; simpl in *; [destruct Hin|].
      destruct Hin as [-> | Hin]; [reflexivity|].
      rewrite (IH Hin). apply andb_false_r.
  - split; [auto | reflexivity].
Qed.

(** X11. [create_faiss_index] and the health file. When [check_file] fails,
    which it does exactly when the file is missing or malformed or one of
    its first three items is not an object, the call raises the exception
    of [create_knowledge_base] and leaves the folder as it was. The call
    returns [True] only when the file passes that check, holds at least one
    valid record, and the encoder loads and encodes the documents; the
    folder then holds the index of the vectors returned, of the dimension
    of the first of them, the documents and the metadata. *)
Theorem build_outcomes :
  forall (w : FAISSCreator.world) (folder : Store.t),
    (FAISSCreator.check_file w = false <->
     FAISSCreator.health_file w = None \/
     exists data,
       FAISSCreator.health_file w = Some data /\
       In FAISSCreator.NotAnObject (Py.slice_to 3 data)) /\
    (FAISSCreator.check_file w = false ->
     FAISSCreator.create_faiss_index w folder = (Py.Raised Py.Exception, folder)) /\
    (forall folder',
       FAISSCreator.create_faiss_index w folder = (Py.Returned true, folder') ->
       FAISSCreator.check_file w = true /\
       FAISSCreator.parse_health_file w <> [] /\
       exists encode embeddings,
         FAISSCreator.sentence_transformer w = Some encode /\
         encode (map fst (paired (FAISSCreator.parse_health_file w)))
           = Some embeddings /\
         folder' =
           Store.mk true
             (Some (Faiss.mk (length (hd [] embeddings)) embeddings))
             (Some (map fst (paired (FAISSCreator.parse_health_file w))))
             (Some (map snd (paired (FAISSCreator.parse_health_file w))))).
Proof.
  intros w folder. split; [apply check_file_fails|]. split.
  - intro Hfile. unfold FAISSCreator.create_faiss_index,
      FAISSCreator.create_knowledge_base. now rewrite Hfile.
  - intro folder'. unfold FAISSCreator.create_faiss_index.
    destruct (FAISSCreator.check_file w) eqn:Hfile.
    + rewrite (@knowledge_base_of_readable w Hfile).
      destruct (Py.truthy (map fst (paired (FAISSCreator.parse_health_file w))))
        eqn:Hdocs; cbn [negb]; [|discriminate].
      destruct (FAISSCreator.sentence_transformer w) as [encode|]; [|discriminate].
      destruct (encode (map fst (paired (FAISSCreator.parse_health_file w))))
        as [embeddings|] eqn:EN; [|discriminate].
      intros [= <-]. split; [reflexivity|]. split.
      * intro E. rewrite E in Hdocs. discriminate.
      * exists encode, embeddings. split; [reflexivity|]. split; [exact EN|].
        reflexivity.
    + unfold FAISSCreator.create_knowledge_base. rewrite Hfile. discriminate.
Qed.

(** A file whose second item is a number: the check fails and the build
    raises. *)
Example build_raises_on_a_stray_item :
  FAISSCreator.create_faiss_index
    (FAISSCreator.mk
       (Some [FAISSCreator.Disease Sample.raw_flu; FAISSCreator.NotAnObject])
       (Some Sample.encode))
    Store.empty
  = (Py.Raised Py.Exception, Store.empty).
Proof. reflexivity. Qed.

(* ================================================================= *)
(** ** Further properties: from the build to the diagnoses *)

Lemma search_returns_with_metadata (self : HealthcareDiagnoser.t) (text : string)
  (k : nat) :
  length (HealthcareDiagnoser.embedder self text)
    = Faiss.d (HealthcareDiagnoser.index self) ->
  (0 < k)%nat ->
  HealthcareDiagnoser.metadata self <> [] ->
  exists hits,
    HealthcareDiagnoser.search_similar_diseases self text k = Py.Returned hits.
Proof.
  intros Hdim Hk Hmd. unfold HealthcareDiagnoser.search_similar_diseases.
  pose proof (search_returns _ _ Hdim Hk) as S. rewrite S. cbn [Py.bind].
  destruct (@collect_hits_returns _ _ Hmd (row_labels _ _ _ S) [])
    as [new [Hc _]].
  exists new. exact Hc.
Qed.

(** X12. What a successful build leaves in the folder can be loaded; the
    loaded tables are the documents and the metadata of the build, and the
    metadata table is not empty. On the loaded object a query of the
    dimension of the index never makes [diagnose] raise, whatever positive
    number of neighbours is asked for, and every diagnosis carries the
    fields of a record parsed from the health file. *)
Theorem built_index_serves :
  forall (w : FAISSCreator.world) (folder folder' : Store.t)
         (embed : string -> vec),
    FAISSCreator.create_faiss_index w folder = (Py.Returned true, folder') ->
    exists self,
      HealthcareDiagnoser.load_faiss_index embed folder' = Py.Returned self /\
      combine (HealthcareDiagnoser.documents self) (HealthcareDiagnoser.metadata self)
        = paired (FAISSCreator.parse_health_file w) /\
      HealthcareDiagnoser.metadata self <> [] /\
      forall text k,
        length (embed text) = Faiss.d (HealthcareDiagnoser.index self) ->
        (0 < k)%nat ->
        exists diags,
          HealthcareDiagnoser.diagnose self text k = Py.Returned diags /\
          forall dg, In dg diags ->
            exists r, In r (FAISSCreator.parse_health_file w) /\ same_record dg r.
Proof.
  intros w folder folder' embed. unfold FAISSCreator.create_faiss_index.
  destruct (FAISSCreator.create_knowledge_base w) as [[documents metadata]|e] eqn:KB;
    [|discriminate].
  destruct (Py.truthy documents) eqn:Hdocs; cbn [negb]; [|discriminate].
  destruct (FAISSCreator.sentence_transformer w) as [encode|]; [|discriminate].
  destruct (encode documents) as [embeddings|]; [|discriminate].
  intros [= <-].
  apply knowledge_base_tables in KB. destruct KB as [Hd Hm].
  eexists. split; [reflexivity|]. cbn.
  assert (Hmd : metadata <> []).
  { intro E. rewrite Hm in E. apply map_eq_nil in E. rewrite E in Hd.
    rewrite Hd in Hdocs. discriminate. }
  split; [rewrite Hd, Hm; apply combine_fst_snd|]. split; [exact Hmd|].
  intros text k Hdim Hk.
  match goal with
  | |- exists diags, HealthcareDiagnoser.diagnose ?s _ _ = _ /\ _ =>
      set (self := s)
  end.
  destruct (@search_returns_with_metadata self text k Hdim Hk Hmd) as [hits Hs].
  exists (HealthcareDiagnoser.rank_and_assemble metadata hits). split.
  - unfold HealthcareDiagnoser.diagnose. rewrite Hs. reflexivity.
  - intros dg Hdg. apply rank_and_assemble_inv in Hdg.
    destruct Hdg as [h [m [_ [Hmatch ->]]]].
    apply earliest_match_In in Hmatch. exists m. split; [|repeat split].
    rewrite Hm in Hmatch. apply in_map_iff in Hmatch.
    destruct Hmatch as [[doc r] [<- Hin]]. unfold paired in Hin.
    apply in_flat_map in Hin. destruct Hin as [r' [Hr' Hin]].
    apply in_map_iff in Hin. destruct Hin as [doc' [[= _ <-] _]]. exact Hr'.
Qed.

(** The sample world, built into an empty folder and loaded with the sample
    encoder of queries. *)
Lemma built_index_serves_witness :
  exists self,
    HealthcareDiagnoser.load_faiss_index Sample.embed
      (snd (FAISSCreator.create_faiss_index Sample.world_ok Store.empty))
      = Py.Returned self /\
    HealthcareDiagnoser.metadata self <> [] /\
    exists diags,
      HealthcareDiagnoser.diagnose self "fever and cough" 15 = Py.Returned diags.
Proof.
  destruct (@built_index_serves Sample.world_ok Store.empty
              (snd (FAISSCreator.create_faiss_index Sample.world_ok Store.empty))
              Sample.embed)
    as [self [Hload [_ [Hmd Hdiag]]]]; [vm_compute; reflexivity|].
  exists self. split; [exact Hload|]. split; [exact Hmd|].
  destruct (Hdiag "fever and cough"%string 15%nat) as [diags [Hd _]].
  - vm_compute in Hload. injection Hload as <-. reflexivity.
  - lia.
  - exists diags. exact Hd.
Defined.

(* ================================================================= *)
(** ** Further properties: names and order *)

Lemma dict_values_names (hits : list Hit.t) :
  map Hit.disease
      (HealthcareDiagnoser.dict_values (HealthcareDiagnoser.deduplicate hits))
  = map fst (HealthcareDiagnoser.deduplicate hits).
Proof.
  pose proof (inv_entry (deduplicate_inv hits)) as Hentry.
  unfold HealthcareDiagnoser.dict_values. rewrite map_map.
  apply map_ext_in. intros [name h] Hin. simpl.
  now destruct (Hentry _ _ Hin) as [-> _].
Qed.

Lemma NoDup_firstn (A : Type) (n : nat) (xs : list A) :
  NoDup xs -> NoDup (firstn n xs).
Proof.
  intro H. revert n. induction H as [|x xs Hx Hxs IH]; intros [|n]; simpl;
    try constructor.
  - intro Hin. apply Hx. eapply In_firstn, Hin.
  - apply IH.
Qed.

Lemma resolved_names (md : list Meta.t) (hs : list Hit.t) :
  (forall h, In h hs ->
     exists m,
       HealthcareDiagnoser.get_complete_disease_info_from md (Hit.disease h) = Some m /\
       Meta.disease m = Hit.disease h) ->
  map Diagnosis.disease
      (flat_map
         (fun h =>
            match HealthcareDiagnoser.get_complete_disease_info_from
                    md (Hit.disease h) with
            | Some m => [diagnosis_of m (Hit.confidence h)]
            | None => []
            end) hs)
  = map Hit.disease hs.
Proof.
  induction hs as [|h hs IH]; intro Hall; simpl; [reflexivity|].
  destruct (Hall h (or_introl eq_refl)) as [m [Hm Hname]]. rewrite Hm. simpl.
  rewrite Hname. f_equal. apply IH. intros h' Hh'. apply Hall. now right.
Qed.

(** X13. When no two entries of the metadata table have names that are
    equal up to letter case, no disease is reported twice: the names of the
    diagnoses returned by one call are pairwise distinct. *)
Theorem no_disease_twice :
  forall (self : HealthcareDiagnoser.t) (text : string) (k : nat)
         (diags : list Diagnosis.t),
    unique_up_to_case (HealthcareDiagnoser.metadata self) ->
    HealthcareDiagnoser.diagnose self text k = Py.Returned diags ->
    NoDup (map Diagnosis.disease diags).
Proof.
  intros self text k diags Hunique H. apply diagnose_inv in H.
  destruct H as [hits [Hs ->]].
  unfold HealthcareDiagnoser.rank_and_assemble, Py.slice_to.
  rewrite assemble_fold, app_nil_l.
  set (ranked := HealthcareDiagnoser.sorted_by_confidence_desc
                   (HealthcareDiagnoser.dict_values
                      (HealthcareDiagnoser.deduplicate hits))).
  rewrite resolved_names.
  - rewrite <- firstn_map. apply NoDup_firstn.
    apply (Permutation_NoDup (Permutation_map Hit.disease (sorted_perm _))).
    rewrite dict_values_names. apply (inv_nodup (deduplicate_inv hits)).
  - intros h Hh. apply In_firstn in Hh.
    apply (Permutation_in _ (Permutation_sym (sorted_perm _))) in Hh.
    unfold HealthcareDiagnoser.dict_values in Hh. apply in_map_iff in Hh.
    destruct Hh as [[name h'] [Heq Hin]]. simpl in Heq. subst h'.
    destruct (inv_entry (deduplicate_inv hits) _ _ Hin) as [_ [Hh _]].
    pose proof (search_hits_inv _ _ _ Hs) as Hall. rewrite Forall_forall in Hall.
    destruct (Hall h Hh) as [dist [m [_ [Hm ->]]]]. simpl.
    exists m. split; [now apply lookup_own_name | reflexivity].
Qed.

(** The sample index with the records Flu and Migraine. *)
Lemma no_disease_twice_witness :
  exists diags,
    HealthcareDiagnoser.diagnose Sample.two_records "fever" 15 = Py.Returned diags /\
    NoDup (map Diagnosis.disease diags).
Proof.
  eexists. split; [vm_compute; reflexivity|].
  apply (@no_disease_twice Sample.two_records "fever" 15).
  - unfold unique_up_to_case. simpl.
    constructor; [intros [H | []]; discriminate H|].
    constructor; [intros [] | constructor].
  - vm_compute. reflexivity.
Defined.

(** X14. Which confidence survives the deduplication does not depend on
    the order of the hits: the dictionaries of two lists that are
    rearrangements of each other hold the same names, and under each name
    hits of equal confidence. *)
Theorem dedup_order_is_irrelevant :
  forall hits hits' : list Hit.t,
    Permutation hits hits' ->
    forall name h,
      In (name, h) (HealthcareDiagnoser.deduplicate hits) ->
      exists h',
        In (name, h') (HealthcareDiagnoser.deduplicate hits') /\
        Hit.confidence h' == Hit.confidence h.
Proof.
  intros hits hits' Hperm name h Hin.
  pose proof (deduplicate_inv hits) as [_ Hentry _].
  pose proof (deduplicate_inv hits') as [_ Hentry' Hseen'].
  destruct (Hentry _ _ Hin) as [Hname [Hh Hmax]].
  assert (Hkey : In name (map fst (HealthcareDiagnoser.deduplicate hits'))).
  { rewrite <- Hname. apply Hseen'. apply (Permutation_in _ Hperm Hh). }
  apply in_map_iff in Hkey. destruct Hkey as [[name' h'] [Heq Hin']].
  simpl in Heq. subst name'. exists h'. split; [exact Hin'|].
  destruct (Hentry' _ _ Hin') as [Hname' [Hh' Hmax']].
  apply Qle_antisym.
  - apply Hmax; [apply (Permutation_in _ (Permutation_sym Hperm) Hh') | exact Hname'].
  - apply Hmax'; [apply (Permutation_in _ Hperm Hh) | exact Hname].
Qed.

(** Two hits of one name, in both orders. *)
Lemma dedup_order_is_irrelevant_witness :
  exists h',
    In ("Flu"%string, h')
       (HealthcareDiagnoser.deduplicate [Sample.hit "Flu" 80; Sample.hit "Flu" 40]) /\
    Hit.confidence h' == 80.
Proof.
  apply (@dedup_order_is_irrelevant
           [Sample.hit "Flu" 40; Sample.hit "Flu" 80]
           [Sample.hit "Flu" 80; Sample.hit "Flu" 40]
           (perm_swap _ _ _) "Flu"%string (Sample.hit "Flu" 80)).
  vm_compute. now left.
Defined.

(* ================================================================= *)
(** ** The index without vectors *)

Lemma getitem_raises (A : Type) (xs : list A) (i : Z) (e : Py.exn) :
  Py.getitem xs i = Py.Raised e -> e = Py.IndexError.
Proof.
  unfold Py.getitem. cbv zeta.
  destruct ((if (i <? 0)%Z then (i + Z.of_nat (length xs))%Z else i) <? 0)%Z.
  - now intros [= <-].
  - destruct (nth_error xs _); [discriminate | now intros [= <-]].
Qed.

Lemma collect_hits_raises (md : list Meta.t) (row : list (Q * Z)) (e : Py.exn) :
  forall results,
    HealthcareDiagnoser.collect_hits md row results = Py.Raised e ->
    e = Py.IndexError.
Proof.
  induction row as [|[dist idx] row IH]; intros results H; simpl in H;
    [discriminate|].
  destruct (idx <? Z.of_nat (length md))%Z; [|eapply IH, H].
  destruct (Py.getitem md idx) as [m|e0] eqn:G; simpl in H.
  - eapply IH, H.
  - injection H as <-. eapply getitem_raises, G.
Qed.

Lemma padding_confidence :
  Py.min 95 (HealthcareDiagnoser.hit_confidence Faiss.FLT_MAX) == 0.
Proof. vm_compute. reflexivity. Qed.

(** The hits found against an index without vectors: one per padding slot,
    all built from the last metadata entry. *)
Lemma hits_without_vectors (self : HealthcareDiagnoser.t) (text : string)
  (k : nat) (hits : list Hit.t) :
  Faiss.ntotal (HealthcareDiagnoser.index self) = 0%nat ->
  HealthcareDiagnoser.search_similar_diseases self text k = Py.Returned hits ->
  exists last j,
    In last (HealthcareDiagnoser.metadata self) /\
    hits = repeat (hit_of last Faiss.FLT_MAX) (S j).
Proof.
  intros Hzero Hs. unfold HealthcareDiagnoser.search_similar_diseases in Hs.
  destruct (Faiss.search (HealthcareDiagnoser.index self)
              (HealthcareDiagnoser.embedder self text) k) as [row|e] eqn:S;
    [|discriminate].
  cbn [Py.bind] in Hs. apply search_row in S. destruct S as [[_ Hk] ->].
  assert (Hnil : Faiss.ranked (HealthcareDiagnoser.index self)
                   (HealthcareDiagnoser.embedder self text) = []).
  { apply length_zero_iff_nil.
    pose proof (ranked_length (HealthcareDiagnoser.index self)
                  (HealthcareDiagnoser.embedder self text)). lia. }
  rewrite Hnil in Hs. destruct k as [|j]; [lia|].
  cbn [firstn app length] in Hs. rewrite Nat.sub_0_r in Hs.
  destruct (nth_error (HealthcareDiagnoser.metadata self)
              (length (HealthcareDiagnoser.metadata self) - 1)) as [last|] eqn:Hlast.
  - rewrite (collect_hits_padding _ _ Hlast) in Hs. injection Hs as <-.
    exists last, j. split; [eapply nth_error_In, Hlast | reflexivity].
  - apply nth_error_None in Hlast.
    destruct (HealthcareDiagnoser.metadata self) as [|m md] eqn:Hmd;
      [|simpl in Hlast; lia].
    simpl in Hs. discriminate.
Qed.

(** C1, as the code has it. Against an index without vectors no test for
    emptiness is made and no error of its own is raised: a call that fails
    fails with [AssertionError], when the query has not the dimension of
    the index or no neighbour is asked for, or with [IndexError], when the
    metadata table is empty; a call for at least one neighbour, with a
    query of the dimension of the index and a metadata table that is not
    empty, returns instead of failing. Whatever is
    returned is at most one diagnosis, of confidence 0, carrying the record
    fields of an entry of the metadata table. *)
Theorem C1_no_emptiness_check :
  forall (self : HealthcareDiagnoser.t) (text : string) (k : nat),
    Faiss.ntotal (HealthcareDiagnoser.index self) = 0%nat ->
    (forall e,
       HealthcareDiagnoser.diagnose self text k = Py.Raised e ->
       (e = Py.AssertionError /\
        (length (HealthcareDiagnoser.embedder self text)
           <> Faiss.d (HealthcareDiagnoser.index self) \/ k = 0%nat)) \/
       (e = Py.IndexError /\ HealthcareDiagnoser.metadata self = [])) /\
    ((0 < k)%nat ->
     length (HealthcareDiagnoser.embedder self text)
       = Faiss.d (HealthcareDiagnoser.index self) ->
     HealthcareDiagnoser.metadata self <> [] ->
     exists diags, HealthcareDiagnoser.diagnose self text k = Py.Returned diags) /\
    (forall diags,
       HealthcareDiagnoser.diagnose self text k = Py.Returned diags ->
       (length diags <= 1)%nat /\
       forall dg, In dg diags ->
         Diagnosis.confidence dg == 0 /\
         exists m, In m (HealthcareDiagnoser.metadata self) /\ same_record dg m).
Proof.
  intros self text k Hzero. split; [|split].
  - intros e H. unfold HealthcareDiagnoser.diagnose,
      HealthcareDiagnoser.search_similar_diseases in H.
    destruct (Faiss.search (HealthcareDiagnoser.index self)
                (HealthcareDiagnoser.embedder self text) k) as [row|e0] eqn:S.
    + cbn [Py.bind] in H.
      destruct (HealthcareDiagnoser.collect_hits (HealthcareDiagnoser.metadata self)
                  row []) as [hits|e1] eqn:C; simpl in H; [discriminate|].
      injection H as <-. right. split; [eapply collect_hits_raises, C|].
      destruct (HealthcareDiagnoser.metadata self) as [|m md] eqn:Hmd;
        [reflexivity|].
      destruct (@collect_hits_returns (m :: md) row) with (results := @nil Hit.t)
        as [new [Hc _]]; [discriminate | eapply row_labels, S | congruence].
    + simpl in H. injection H as <-. left. eapply search_raises, S.
  - intros Hk Hdim Hmd.
    destruct (@search_returns_with_metadata self text k Hdim Hk Hmd) as [hits Hs].
    unfold HealthcareDiagnoser.diagnose. rewrite Hs. cbn [Py.bind]. eauto.
  - intros diags H. apply diagnose_inv in H. destruct H as [hits [Hs ->]].
    destruct (@hits_without_vectors self text k hits Hzero Hs)
      as [last [j [Hlast ->]]].
    unfold HealthcareDiagnoser.rank_and_assemble, HealthcareDiagnoser.deduplicate.
    rewrite dedup_repeat_once. cbn.
    unfold HealthcareDiagnoser.assemble. cbn [Hit.disease hit_of].
    destruct (HealthcareDiagnoser.get_complete_disease_info_from
                (HealthcareDiagnoser.metadata self) (Meta.disease last))
      as [m|] eqn:L; cbn [app length In].
    + split; [lia|]. intros dg [<- | []]. split.
      * apply padding_confidence.
      * exists m. split; [|repeat split].
        eapply earliest_match_In, lookup_earliest, L.
    + split; [lia|]. intros dg [].
Qed.

(** An index without vectors next to one metadata entry: the call returns
    one diagnosis of confidence 0, taken from the metadata table. *)
Lemma C1_no_emptiness_check_witness :
  exists diags,
    HealthcareDiagnoser.diagnose Sample.no_vectors "fever" 15 = Py.Returned diags /\
    (length diags <= 1)%nat /\
    forall dg, In dg diags ->
      Diagnosis.confidence dg == 0 /\
      exists m, In m (HealthcareDiagnoser.metadata Sample.no_vectors) /\
                same_record dg m.
Proof.
  destruct (@C1_no_emptiness_check Sample.no_vectors "fever" 15 eq_refl)
    as [_ [Hreturns Hshape]].
  destruct Hreturns as [diags Hdiags]; [lia | reflexivity | discriminate |].
  exists diags. split; [exact Hdiags | exact (Hshape diags Hdiags)].
Defined.

(** C1, as stated, fails: against an index without vectors and a metadata
    table with one entry the call does not fail; it returns a diagnosis of
    that entry, of confidence 0, that no indexed document stands behind.
    With empty tables the call fails, with the [IndexError] of the access to
    the metadata table. *)
Lemma C1_counterexample :
  Faiss.ntotal (HealthcareDiagnoser.index Sample.no_vectors) = 0%nat /\
  HealthcareDiagnoser.documents Sample.no_vectors = [] /\
  HealthcareDiagnoser.diagnose Sample.no_vectors "fever" 15 =
    Py.Returned
      [Diagnosis.mk "Flu" ["fever"; "cough"]%string ["Paracetamol"%string]
                    ["Rest"%string] 0] /\
  Faiss.ntotal (HealthcareDiagnoser.index Sample.nothing) = 0%nat /\
  HealthcareDiagnoser.diagnose Sample.nothing "fever" 15 = Py.Raised Py.IndexError.
Proof.
  repeat split; vm_compute; reflexivity.
Qed.
